(** * AI Study Buddy API (main.py): a shallow embedding and its properties

    The service is a handful of FastAPI handlers around three outside
    resources: a generative model, Python's library functions (json, re,
    hashlib, the builtin hash) and a SQLite file with two tables.

    - Text is [string]: the bytes of the UTF-8 encoding of a Python str.
    - Python exceptions are values of [exn]; a computation that may raise
      returns an [outcome].
    - The store is a [database] value threaded through the handlers by the
      monad [M]; a [connection] holds the working copy that [commit] writes
      back, as sqlite3 does with its implicit transaction.
    - Library functions whose code is not part of the repository (the model,
      json.loads, json.dumps, md5, hash) are the fields of the class
      [Runtime]; every theorem holds for every instance.
    - Requests are handled one at a time: the model has no concurrency.
    - A handler in [M] is the request as it runs when its connection gets
      the write lock of the file. The except path of submit_quiz and of
      create_user neither closes nor rolls back its connection: after a
      refused INSERT the connection stays in its transaction and keeps the
      write lock until Python's garbage collector finalizes it. The
      [process] layer adds that lock and the collector to the handlers. *)

From Stdlib Require Import ZArith List String Ascii Bool Lia QArith.
From Stdlib Require Import DecimalString.
Import ListNotations.

Local Open Scope string_scope.
Local Open Scope Z_scope.

Set Warnings "-register-all".

(** ** Python values and exceptions *)

(** What json.loads builds and what a handler returns under "questions". *)
Inductive pyobj : Type :=
| PyNone
| PyBool (b : bool)
| PyInt (n : Z)
| PyFloat (literal : string)
| PyStr (s : string)
| PyList (items : list pyobj)
| PyDict (entries : list (string * pyobj)).

(** The exceptions the handlers meet. Each is a subclass of Python's
    Exception (fastapi.HTTPException derives from Starlette's, which derives
    from Exception), so an [except Exception] clause catches every one. *)
Inductive exn : Type :=
| HTTPException (status_code : Z) (detail : string)
| IntegrityError (msg : string)
| JSONDecodeError (msg : string)
| OtherError (msg : string).

Inductive outcome (A : Type) : Type :=
| Return (a : A)
| Raise (e : exn).
Arguments Return {A} a.
Arguments Raise {A} e.

(** str(n) for a Python int. *)
Definition str_of_int (n : Z) : string := NilZero.string_of_int (Z.to_int n).

(** str(e): Starlette prints an HTTPException as "<status>: <detail>"; the
    other exceptions print their message. *)
Definition str_exn (e : exn) : string :=
  match e with
  | HTTPException status_code detail => str_of_int status_code ++ ": " ++ detail
  | IntegrityError msg => msg
  | JSONDecodeError msg => msg
  | OtherError msg => msg
  end.

(** ** re.search for patterns made of single characters and greedy stars *)

Module Re.

Inductive atom : Type :=
| Lit (c : ascii)
| Dot.

Inductive piece : Type :=
| One (a : atom)
| Star (a : atom).

Definition pattern := list piece.

Definition newline : ascii := ascii_of_nat 10.

(** With re.DOTALL the dot matches every character, without it every
    character but a newline. *)
Definition atom_matches (dotall : bool) (a : atom) (c : ascii) : bool :=
  match a with
  | Lit c' => Ascii.eqb c c'
  | Dot => dotall || negb (Ascii.eqb c newline)
  end.

(** [match_here dotall p s]: the length of the match of [p] at the start of
    [s] that a backtracking matcher finds first. A star is greedy: it takes
    a character whenever the rest of the pattern can still match after it,
    and gives characters back one at a time otherwise. *)
Fixpoint match_here (dotall : bool) (p : pattern) : string -> option nat :=
  match p with
  | [] => fun _ => Some O
  | One a :: p' =>
      fun s =>
        match s with
        | String c s' =>
            if atom_matches dotall a c
            then option_map S (match_here dotall p' s')
            else None
        | EmptyString => None
        end
  | Star a :: p' =>
      fix star (s : string) : option nat :=
        match s with
        | String c s' =>
            if atom_matches dotall a c
            then match star s' with
                 | Some n => Some (S n)
                 | None => match_here dotall p' s
                 end
            else match_here dotall p' s
        | EmptyString => match_here dotall p' s
        end
  end.

(** re.search(p, s): the leftmost position where [p] matches; the result is
    the matched text, m.group(). *)
Fixpoint search (dotall : bool) (p : pattern) (s : string) : option string :=
  match match_here dotall p s with
  | Some n => Some (substring 0 n s)
  | None =>
      match s with
      | String _ s' => search dotall p s'
      | EmptyString => None
      end
  end.

End Re.

(** r'\[.*\]' *)
Definition bracketed_array : Re.pattern :=
  [Re.One (Re.Lit "["%char); Re.Star Re.Dot; Re.One (Re.Lit "]"%char)].

(** ** The store: two tables, each with a TEXT PRIMARY KEY *)

(** A row of "users": id, name, subjects, level, xp. *)
Record user_row : Type := {
  users_id : string;
  users_name : string;
  users_subjects : string;
  users_level : Z;
  users_xp : Z
}.

(** A row of "quiz_history": id, user_id, subject, score, total_questions,
    timestamp. *)
Record quiz_history_row : Type := {
  qh_id : string;
  qh_user_id : string;
  qh_subject : string;
  qh_score : Z;
  qh_total_questions : Z;
  qh_timestamp : string
}.

(** The file study_buddy.db: the rows of each table in insertion order. *)
Record database : Type := {
  users : list user_row;
  quiz_history : list quiz_history_row
}.

(** init_db: CREATE TABLE IF NOT EXISTS on a new file leaves two empty
    tables. *)
Definition init_db : database := {| users := []; quiz_history := [] |}.

(** ** The monad of a handler: the database file and exceptions *)

Definition M (A : Type) : Type := database -> outcome A * database.

Definition ret {A : Type} (a : A) : M A := fun d => (Return a, d).

Definition raise {A : Type} (e : exn) : M A := fun d => (Raise e, d).

Definition bind {A B : Type} (m : M A) (k : A -> M B) : M B :=
  fun d =>
    match m d with
    | (Return a, d') => k a d'
    | (Raise e, d') => (Raise e, d')
    end.

Definition lift {A : Type} (o : outcome A) : M A := fun d => (o, d).

(** try: body / except Exception as e: handler e. The file is the one the
    body left; a connection that the body leaves open is the matter of
    [run_write]. *)
Definition try_except {A : Type} (body : M A) (handler : exn -> M A) : M A :=
  fun d =>
    match body d with
    | (Return a, d') => (Return a, d')
    | (Raise e, d') => handler e d'
    end.

Declare Scope monad_scope.
Delimit Scope monad_scope with monad.
Notation "x <- m ;; k" := (bind m (fun x => k))
  (at level 61, m at next level, right associativity) : monad_scope.
Notation "m ;;; k" := (bind m (fun _ => k))
  (at level 61, right associativity) : monad_scope.

(** ** sqlite3: a connection works on a copy until commit *)

(** The connection of this section is one that obtains the write lock when
    it first writes; a writer that meets the lock of an abandoned
    connection is the matter of [run_write] below. *)

Record connection : Type := { working : database }.

(** sqlite3.connect('study_buddy.db') *)
Definition connect : M connection := fun d => (Return {| working := d |}, d).

(** conn.commit(): the working copy becomes the file. *)
Definition commit (conn : connection) : M unit :=
  fun _ => (Return tt, working conn).

(** conn.close(): work that was not committed is dropped. *)
Definition close (conn : connection) : M unit := ret tt.

Definition has_user (id : string) (d : database) : bool :=
  existsb (fun u => String.eqb (users_id u) id) (users d).

Definition has_quiz (id : string) (d : database) : bool :=
  existsb (fun q => String.eqb (qh_id q) id) (quiz_history d).

(** INSERT INTO users (id, name, subjects, level, xp) VALUES (?, ?, ?, ?, ?):
    the primary key refuses a second row with the same id. *)
Definition insert_users (conn : connection) (row : user_row)
  : outcome connection :=
  if has_user (users_id row) (working conn)
  then Raise (IntegrityError "UNIQUE constraint failed: users.id")
  else Return {| working :=
                   {| users := users (working conn) ++ [row];
                      quiz_history := quiz_history (working conn) |} |}.

(** INSERT INTO quiz_history (id, user_id, subject, score, total_questions,
    timestamp) VALUES (?, ?, ?, ?, ?, ?) *)
Definition insert_quiz_history (conn : connection) (row : quiz_history_row)
  : outcome connection :=
  if has_quiz (qh_id row) (working conn)
  then Raise (IntegrityError "UNIQUE constraint failed: quiz_history.id")
  else Return {| working :=
                   {| users := users (working conn);
                      quiz_history := quiz_history (working conn) ++ [row] |} |}.

(** SELECT * FROM users WHERE id = ? followed by fetchone() *)
Definition select_user (conn : connection) (id : string) : option user_row :=
  find (fun u => String.eqb (users_id u) id) (users (working conn)).

(** One row of the aggregate query: subject, AVG(score), COUNT( * ). *)
Record subject_stat : Type := {
  stat_subject : string;
  stat_avg_score : Q;
  stat_quiz_count : Z
}.

Definition sum_scores (rows : list quiz_history_row) : Z :=
  fold_right (fun r acc => qh_score r + acc) 0 rows.

(** SELECT subject, AVG(score), COUNT( * ) FROM quiz_history
    WHERE user_id = ? GROUP BY subject, then fetchall(). The average is the
    exact quotient (SQLite returns the nearest double); SQL leaves the order
    of the groups open (SQLite happens to sort them by subject), here it is
    the order of first appearance: the statements below do not depend on
    the order. *)
Definition select_subject_stats (conn : connection) (user_id : string)
  : list subject_stat :=
  let rows := filter (fun q => String.eqb (qh_user_id q) user_id)
                     (quiz_history (working conn)) in
  map (fun s =>
         let group := filter (fun q => String.eqb (qh_subject q) s) rows in
         {| stat_subject := s;
            stat_avg_score :=
              Qmake (sum_scores group) (Pos.of_nat (List.length group));
            stat_quiz_count := Z.of_nat (List.length group) |})
      (nodup string_dec (map qh_subject rows)).

(** ** Request and response models *)

Module ChatRequest.
Record t : Type := {
  message : string;
  user_id : string;
  subject : option string
}.
End ChatRequest.

Module QuizRequest.
Record t : Type := {
  subject : string;
  topic : string;
  difficulty : string;
  num_questions : Z;
  user_id : string
}.
End QuizRequest.

Module User.
Record t : Type := {
  name : string;
  subjects : list string;
  grade_level : string
}.
End User.

Module QuizSubmission.
Record t : Type := {
  user_id : string;
  quiz_id : string;
  answers : list string;
  subject : string
}.
End QuizSubmission.

Module ChatResponse.
Record t : Type := {
  response : string;
  timestamp : string
}.
End ChatResponse.

Module QuizResponse.
Record t : Type := {
  quiz_id : string;
  questions : pyobj;
  subject : string;
  topic : string;
  difficulty : string
}.
End QuizResponse.

Module SubmitResponse.
Record t : Type := {
  score : Z;
  total_questions : Z;
  percentage : Z;
  message : string;
  xp_earned : Z
}.
End SubmitResponse.

Module CreateResponse.
Record t : Type := {
  user_id : string;
  message : string
}.
End CreateResponse.

Module StatsResponse.
Record stat : Type := {
  subject : string;
  average_score : Q;
  quiz_count : Z
}.
Record t : Type := {
  user_id : string;
  name : string;
  level : Z;
  xp : Z;
  subject_stats : list stat
}.
End StatsResponse.

(** ** The clock and the library functions *)

(** A reading of datetime.now(): its date and its time of day as printed.
    str() puts a space between the two, isoformat() a "T". *)
Record datetime : Type := {
  date : string;
  time : string
}.

Definition str_datetime (now : datetime) : string :=
  date now ++ " " ++ time now.

Definition isoformat (now : datetime) : string :=
  date now ++ "T" ++ time now.

(** What the handlers call outside the repository:
    - [generate_content prompt] is model.generate_content(prompt).text, the
      generated text or the provider's failure;
    - [json_loads] is json.loads, which raises on text that is not JSON;
    - [json_dumps] is json.dumps on a list of strings;
    - [md5_hexdigest s] is hashlib.md5(s.encode()).hexdigest();
    - [hash] is the builtin hash on str, a signed machine integer. *)
Class Runtime : Type := {
  generate_content : string -> outcome string;
  json_loads : string -> outcome pyobj;
  json_dumps : list string -> string;
  md5_hexdigest : string -> string;
  hash : string -> Z
}.

(** ** Prompt templates *)

Definition nl : string := String (ascii_of_nat 10) EmptyString.
Definition dq : string := String (ascii_of_nat 34) EmptyString.

(** request.subject or 'General': None and the empty string are falsy. *)
Definition subject_or_general (subject : option string) : string :=
  match subject with
  | None => "General"
  | Some EmptyString => "General"
  | Some s => s
  end.

Definition chat_prompt (request : ChatRequest.t) : string :=
  nl ++
  "        You are an AI Study Buddy, a helpful and encouraging tutor. " ++ nl ++
  "        Subject context: " ++ subject_or_general (ChatRequest.subject request) ++ nl ++
  "        " ++ nl ++
  "        Rules:" ++ nl ++
  "        - Give clear, step-by-step explanations" ++ nl ++
  "        - Use simple language appropriate for students" ++ nl ++
  "        - Be encouraging and supportive" ++ nl ++
  "        - If it's a math problem, show each step" ++ nl ++
  "        - If it's a concept, use analogies and examples" ++ nl ++
  "        - Keep responses under 200 words for mobile" ++ nl ++
  "        " ++ nl ++
  "        Student question: " ++ ChatRequest.message request ++ nl ++
  "        ".

Definition quiz_prompt (request : QuizRequest.t) : string :=
  nl ++
  "        Create a " ++ QuizRequest.difficulty request ++
  " level quiz about " ++ QuizRequest.topic request ++
  " in " ++ QuizRequest.subject request ++ "." ++ nl ++
  "        Generate exactly " ++ str_of_int (QuizRequest.num_questions request) ++
  " multiple choice questions." ++ nl ++
  "        " ++ nl ++
  "        Format your response as a valid JSON array with this structure:" ++ nl ++
  "        [" ++ nl ++
  "            {" ++ nl ++
  "                " ++ dq ++ "question" ++ dq ++ ": " ++
  dq ++ "Question text here?" ++ dq ++ "," ++ nl ++
  "                " ++ dq ++ "options" ++ dq ++ ": [" ++
  dq ++ "A) Option 1" ++ dq ++ ", " ++ dq ++ "B) Option 2" ++ dq ++ ", " ++
  dq ++ "C) Option 3" ++ dq ++ ", " ++ dq ++ "D) Option 4" ++ dq ++ "]," ++ nl ++
  "                " ++ dq ++ "correct_answer" ++ dq ++ ": " ++
  dq ++ "A" ++ dq ++ "," ++ nl ++
  "                " ++ dq ++ "explanation" ++ dq ++ ": " ++
  dq ++ "Brief explanation of why this is correct" ++ dq ++ nl ++
  "            }" ++ nl ++
  "        ]" ++ nl ++
  "        " ++ nl ++
  "        Make questions practical and educational. Ensure JSON is valid." ++ nl ++
  "        ".

(** The placeholder quiz of generate_quiz: one question. *)
Definition fallback_options : list pyobj :=
  [PyStr "A) Option 1"; PyStr "B) Option 2";
   PyStr "C) Option 3"; PyStr "D) Option 4"].

Definition fallback_question (topic : string) : pyobj :=
  PyDict
    [("question", PyStr ("Sample question about " ++ topic ++ "?"));
     ("options", PyList fallback_options);
     ("correct_answer", PyStr "A");
     ("explanation", PyStr "This is a sample explanation.")].

Definition fallback_quiz (topic : string) : pyobj :=
  PyList [fallback_question topic].

(** ** The handlers *)

Section Handlers.

Context {R : Runtime}.

Local Open Scope monad_scope.

(** except Exception as e: raise HTTPException(status_code=500, detail=str(e)) *)
Definition except_500 {A : Type} (body : M A) : M A :=
  try_except body (fun e => raise (HTTPException 500 (str_exn e))).

(** POST /api/chat *)
Definition chat_with_ai (now : datetime) (request : ChatRequest.t)
  : M ChatResponse.t :=
  except_500
    (let system_prompt := chat_prompt request in
     text <- lift (generate_content system_prompt) ;;
     ret {| ChatResponse.response := text;
            ChatResponse.timestamp := isoformat now |}).

(** POST /api/generate-quiz *)
Definition generate_quiz (now : datetime) (request : QuizRequest.t)
  : M QuizResponse.t :=
  except_500
    (let prompt := quiz_prompt request in
     text <- lift (generate_content prompt) ;;
     quiz_data <-
       match Re.search true bracketed_array text with
       | Some json_match => lift (json_loads json_match)
       | None => ret (fallback_quiz (QuizRequest.topic request))
       end ;;
     let quiz_id :=
       md5_hexdigest (QuizRequest.user_id request ++ str_datetime now) in
     ret {| QuizResponse.quiz_id := quiz_id;
            QuizResponse.questions := quiz_data;
            QuizResponse.subject := QuizRequest.subject request;
            QuizResponse.topic := QuizRequest.topic request;
            QuizResponse.difficulty := QuizRequest.difficulty request |}).

(** min(90, max(60, hash(user_id) % 40 + 60)); Python's % with a positive
    divisor is [Z.modulo]. *)
Definition quiz_score (user_id : string) : Z :=
  Z.min 90 (Z.max 60 (hash user_id mod 40 + 60)).

(** POST /api/submit-quiz *)
Definition submit_quiz (now : datetime) (submission : QuizSubmission.t)
  : M SubmitResponse.t :=
  except_500
    (let score := quiz_score (QuizSubmission.user_id submission) in
     conn <- connect ;;
     conn <- lift (insert_quiz_history conn
                     {| qh_id := QuizSubmission.quiz_id submission;
                        qh_user_id := QuizSubmission.user_id submission;
                        qh_subject := QuizSubmission.subject submission;
                        qh_score := score;
                        qh_total_questions :=
                          Z.of_nat (List.length (QuizSubmission.answers submission));
                        qh_timestamp := isoformat now |}) ;;
     commit conn ;;;
     close conn ;;;
     ret {| SubmitResponse.score := score;
            SubmitResponse.total_questions :=
              Z.of_nat (List.length (QuizSubmission.answers submission));
            SubmitResponse.percentage := score;
            SubmitResponse.message :=
              if 80 <=? score then "Great job!" else "Keep practicing!";
            SubmitResponse.xp_earned := score / 10 |}).

(** POST /api/create-user *)
Definition create_user (now : datetime) (user : User.t)
  : M CreateResponse.t :=
  except_500
    (let user_id := md5_hexdigest (User.name user ++ str_datetime now) in
     conn <- connect ;;
     conn <- lift (insert_users conn
                     {| users_id := user_id;
                        users_name := User.name user;
                        users_subjects := json_dumps (User.subjects user);
                        users_level := 1;
                        users_xp := 0 |}) ;;
     commit conn ;;;
     close conn ;;;
     ret {| CreateResponse.user_id := user_id;
            CreateResponse.message := "User created successfully" |}).

Definition stat_of_row (stat : subject_stat) : StatsResponse.stat :=
  {| StatsResponse.subject := stat_subject stat;
     StatsResponse.average_score := stat_avg_score stat;
     StatsResponse.quiz_count := stat_quiz_count stat |}.

(** GET /api/user-stats/{user_id} *)
Definition get_user_stats (user_id : string) : M StatsResponse.t :=
  except_500
    (conn <- connect ;;
     let user_data := select_user conn user_id in
     let subject_stats := select_subject_stats conn user_id in
     close conn ;;;
     match user_data with
     | None => raise (HTTPException 404 "User not found")
     | Some row =>
         ret {| StatsResponse.user_id := users_id row;
                StatsResponse.name := users_name row;
                StatsResponse.level := users_level row;
                StatsResponse.xp := users_xp row;
                StatsResponse.subject_stats := map stat_of_row subject_stats |}
     end).

(** GET / *)
Definition root : M string := ret "AI Study Buddy API is running!".

End Handlers.

(** ** The application: one request, one handler *)

Inductive request : Type :=
| GetRoot
| PostChat (body : ChatRequest.t)
| PostGenerateQuiz (body : QuizRequest.t)
| PostSubmitQuiz (body : QuizSubmission.t)
| PostCreateUser (body : User.t)
| GetUserStats (user_id : string).

Inductive response : Type :=
| RootBody (message : string)
| ChatBody (body : ChatResponse.t)
| QuizBody (body : QuizResponse.t)
| SubmitBody (body : SubmitResponse.t)
| CreateBody (body : CreateResponse.t)
| StatsBody (body : StatsResponse.t).

Section Application.

Context {R : Runtime}.

Local Open Scope monad_scope.

(** The route table: [now] is the clock at the time of the request. *)
Definition app (now : datetime) (req : request) : M response :=
  match req with
  | GetRoot => m <- root ;; ret (RootBody m)
  | PostChat body => r <- chat_with_ai now body ;; ret (ChatBody r)
  | PostGenerateQuiz body => r <- generate_quiz now body ;; ret (QuizBody r)
  | PostSubmitQuiz body => r <- submit_quiz now body ;; ret (SubmitBody r)
  | PostCreateUser body => r <- create_user now body ;; ret (CreateBody r)
  | GetUserStats user_id => r <- get_user_stats user_id ;; ret (StatsBody r)
  end.

(** The database after a sequence of requests, each with its clock
    reading; a failed request does not stop the service. *)
Fixpoint serve (trace : list (datetime * request)) (d : database) : database :=
  match trace with
  | [] => d
  | (now, req) :: rest => serve rest (snd (app now req d))
  end.

End Application.

(** ** A runtime to run the handlers on examples *)

Module Sample.

Definition is_ws (c : ascii) : bool :=
  match nat_of_ascii c with
  | 32%nat | 9%nat | 10%nat | 13%nat => true
  | _ => false
  end.

Fixpoint skip_ws (s : string) : string :=
  match s with
  | String c s' => if is_ws c then skip_ws s' else s
  | EmptyString => EmptyString
  end.

Definition digit_of (c : ascii) : option Z :=
  let n := nat_of_ascii c in
  if ((48 <=? n) && (n <=? 57))%nat then Some (Z.of_nat n - 48) else None.

(** The digits at the start of [s], read after the value [acc]. *)
Fixpoint digits (acc : Z) (s : string) : Z * string :=
  match s with
  | String c s' =>
      match digit_of c with
      | Some k => digits (10 * acc + k) s'
      | None => (acc, s)
      end
  | EmptyString => (acc, s)
  end.

Definition starts_number_tail (s : string) : bool :=
  match s with
  | String c _ =>
      (Ascii.eqb c "."%char || Ascii.eqb c "e"%char || Ascii.eqb c "E"%char)%bool
  | EmptyString => false
  end.

(** A JSON integer without sign: no leading zero; a fraction or an exponent
    is outside the fragment. *)
Definition unsigned_int (s : string) : option (Z * string) :=
  match s with
  | String c s' =>
      match digit_of c with
      | Some 0 => if starts_number_tail s' then None
                  else match s' with
                       | String c' _ =>
                           match digit_of c' with
                           | Some _ => None
                           | None => Some (0, s')
                           end
                       | EmptyString => Some (0, s')
                       end
      | Some k => let (n, rest) := digits k s' in
                  if starts_number_tail rest then None else Some (n, rest)
      | None => None
      end
  | EmptyString => None
  end.

(** The characters of a string literal up to its closing quote; an escape
    or a control character is outside the fragment. *)
Fixpoint string_body (s : string) : option (string * string) :=
  match s with
  | String c s' =>
      if Ascii.eqb c (ascii_of_nat 34) then Some (EmptyString, s')
      else if Ascii.eqb c (ascii_of_nat 92) then None
      else if (nat_of_ascii c <? 32)%nat then None
      else match string_body s' with
           | Some (body, rest) => Some (String c body, rest)
           | None => None
           end
  | EmptyString => None
  end.

(** [expect w s]: [s] without its prefix [w]. *)
Fixpoint expect (w s : string) : option string :=
  match w, s with
  | EmptyString, _ => Some s
  | String a w', String b s' => if Ascii.eqb a b then expect w' s' else None
  | String _ _, EmptyString => None
  end.

(** A recursive-descent decoder for the JSON fragment of null, booleans,
    integers, strings without escapes, arrays and objects. [fuel] bounds the
    nesting and the number of items. *)
Fixpoint value (fuel : nat) (s : string) : option (pyobj * string) :=
  match fuel with
  | O => None
  | S fuel' =>
      match skip_ws s with
      | String c rest =>
          if Ascii.eqb c "n"%char then
            option_map (fun r => (PyNone, r)) (expect "ull" rest)
          else if Ascii.eqb c "t"%char then
            option_map (fun r => (PyBool true, r)) (expect "rue" rest)
          else if Ascii.eqb c "f"%char then
            option_map (fun r => (PyBool false, r)) (expect "alse" rest)
          else if Ascii.eqb c (ascii_of_nat 34) then
            option_map (fun '(body, r) => (PyStr body, r)) (string_body rest)
          else if Ascii.eqb c "-"%char then
            option_map (fun '(n, r) => (PyInt (- n), r)) (unsigned_int rest)
          else if Ascii.eqb c "["%char then
            match skip_ws rest with
            | String c' rest' =>
                if Ascii.eqb c' "]"%char then Some (PyList [], rest')
                else option_map (fun '(items, r) => (PyList items, r))
                                (elements fuel' rest)
            | EmptyString => None
            end
          else if Ascii.eqb c "{"%char then
            match skip_ws rest with
            | String c' rest' =>
                if Ascii.eqb c' "}"%char then Some (PyDict [], rest')
                else option_map (fun '(entries, r) => (PyDict entries, r))
                                (members fuel' rest)
            | EmptyString => None
            end
          else
            option_map (fun '(n, r) => (PyInt n, r))
                       (unsigned_int (String c rest))
      | EmptyString => None
      end
  end

with elements (fuel : nat) (s : string) : option (list pyobj * string) :=
  match fuel with
  | O => None
  | S fuel' =>
      match value fuel' s with
      | Some (v, rest) =>
          match skip_ws rest with
          | String c rest' =>
              if Ascii.eqb c "]"%char then Some ([v], rest')
              else if Ascii.eqb c ","%char then
                option_map (fun '(vs, r) => (v :: vs, r)) (elements fuel' rest')
              else None
          | EmptyString => None
          end
      | None => None
      end
  end

with members (fuel : nat) (s : string)
  : option (list (string * pyobj) * string) :=
  match fuel with
  | O => None
  | S fuel' =>
      match skip_ws s with
      | String q after_quote =>
          if Ascii.eqb q (ascii_of_nat 34) then
            match string_body after_quote with
            | Some (key, rest) =>
                match skip_ws rest with
                | String colon rest' =>
                    if Ascii.eqb colon ":"%char then
                      match value fuel' rest' with
                      | Some (v, rest'') =>
                          match skip_ws rest'' with
                          | String c rest''' =>
                              if Ascii.eqb c "}"%char
                              then Some ([(key, v)], rest''')
                              else if Ascii.eqb c ","%char then
                                option_map
                                  (fun '(kvs, r) => ((key, v) :: kvs, r))
                                  (members fuel' rest''')
                              else None
                          | EmptyString => None
                          end
                      | None => None
                      end
                    else None
                | EmptyString => None
                end
            | None => None
            end
          else None
      | EmptyString => None
      end
  end.

(** json.loads on the fragment: one value, blanks around it, nothing else.
    Twice the length of the text is fuel enough: of two calls in a row, one
    consumes a character. *)
Definition loads (s : string) : outcome pyobj :=
  match value (2 * String.length s + 2) s with
  | Some (v, rest) =>
      match skip_ws rest with
      | EmptyString => Return v
      | String _ _ => Raise (JSONDecodeError "Extra data")
      end
  | None => Raise (JSONDecodeError "Expecting value")
  end.

(** json.dumps of a list of strings that need no escape. *)
Definition dumps (l : list string) : string :=
  "[" ++ String.concat ", " (map (fun s => dq ++ s ++ dq) l) ++ "]".

(** A polynomial string hash folded into a signed 64-bit integer. *)
Fixpoint poly (acc : Z) (s : string) : Z :=
  match s with
  | String c s' => poly (31 * acc + Z.of_nat (nat_of_ascii c)) s'
  | EmptyString => acc
  end.

Definition hash64 (s : string) : Z :=
  (poly 7 s * 2654435761 + 2 ^ 63) mod 2 ^ 64 - 2 ^ 63.

(** A stand-in for the digest: injective, so that distinct inputs give
    distinct identifiers. *)
Definition digest (s : string) : string := "md5:" ++ s.

(** The runtime in which the model answers every prompt with [reply]. *)
Definition runtime (reply : outcome string) : Runtime :=
  {| generate_content := fun _ => reply;
     json_loads := loads;
     json_dumps := dumps;
     md5_hexdigest := digest;
     hash := hash64 |}.

(** The runtime whose model says nothing, for the handlers that do not ask
    it. *)
Definition quiet : Runtime := runtime (Return EmptyString).

(** Clock readings and requests for the examples. *)
Definition morning : datetime :=
  {| date := "2025-01-01"; time := "09:00:00.000000" |}.

Definition clock : datetime :=
  {| date := "2025-01-01"; time := "10:00:00.000000" |}.

Definition ana : User.t :=
  {| User.name := "Ana"; User.subjects := ["Math"]; User.grade_level := "9" |}.

Definition algebra_quiz : QuizRequest.t :=
  {| QuizRequest.subject := "Math";
     QuizRequest.topic := "Algebra";
     QuizRequest.difficulty := "easy";
     QuizRequest.num_questions := 1;
     QuizRequest.user_id := "u1" |}.

Definition submission : QuizSubmission.t :=
  {| QuizSubmission.user_id := "u1";
     QuizSubmission.quiz_id := "q1";
     QuizSubmission.answers := ["A"; "B"];
     QuizSubmission.subject := "Math" |}.

(** A submission under the identifier that create_user derives for [ana]
    at [clock]. *)
Definition early_submission : QuizSubmission.t :=
  {| QuizSubmission.user_id := digest "Ana2025-01-01 10:00:00.000000";
     QuizSubmission.quiz_id := "q0";
     QuizSubmission.answers := ["A"];
     QuizSubmission.subject := "Math" |}.

End Sample.

(** ** Vocabulary of the statements *)

(** [occurs c s]: the character [c] is somewhere in [s]. *)
Fixpoint occurs (c : ascii) (s : string) : bool :=
  match s with
  | String c' s' => Ascii.eqb c' c || occurs c s'
  | EmptyString => false
  end.

(** The text before the first [c] and the text after it. *)
Fixpoint split_first (c : ascii) (s : string) : option (string * string) :=
  match s with
  | String c' s' =>
      if Ascii.eqb c' c then Some (EmptyString, s')
      else match split_first c s' with
           | Some (pre, rest) => Some (String c' pre, rest)
           | None => None
           end
  | EmptyString => None
  end.

(** The text before the last [c] and the text after it. *)
Fixpoint split_last (c : ascii) (s : string) : option (string * string) :=
  match s with
  | String c' s' =>
      match split_last c s' with
      | Some (mid, post) => Some (String c' mid, post)
      | None => if Ascii.eqb c' c then Some (EmptyString, s') else None
      end
  | EmptyString => None
  end.

Section Rows.

Context {R : Runtime}.

(** The quiz_history row that submit_quiz writes. *)
Definition submitted_row (now : datetime) (submission : QuizSubmission.t)
  : quiz_history_row :=
  {| qh_id := QuizSubmission.quiz_id submission;
     qh_user_id := QuizSubmission.user_id submission;
     qh_subject := QuizSubmission.subject submission;
     qh_score := quiz_score (QuizSubmission.user_id submission);
     qh_total_questions :=
       Z.of_nat (List.length (QuizSubmission.answers submission));
     qh_timestamp := isoformat now |}.

(** The identifier create_user derives and the users row it writes. *)
Definition new_user_id (now : datetime) (user : User.t) : string :=
  md5_hexdigest (User.name user ++ str_datetime now).

Definition created_row (now : datetime) (user : User.t) : user_row :=
  {| users_id := new_user_id now user;
     users_name := User.name user;
     users_subjects := json_dumps (User.subjects user);
     users_level := 1;
     users_xp := 0 |}.

(** What generate_quiz answers around the question list [quiz_data]. *)
Definition quiz_response (now : datetime) (request : QuizRequest.t)
    (quiz_data : pyobj) : QuizResponse.t :=
  {| QuizResponse.quiz_id :=
       md5_hexdigest (QuizRequest.user_id request ++ str_datetime now);
     QuizResponse.questions := quiz_data;
     QuizResponse.subject := QuizRequest.subject request;
     QuizResponse.topic := QuizRequest.topic request;
     QuizResponse.difficulty := QuizRequest.difficulty request |}.

End Rows.

(** ** The process: abandoned connections and the write lock *)

(** The service process between two requests: the database file, and
    whether a connection abandoned by a refused INSERT still holds the
    write lock of the file. *)
Record process : Type := {
  file : database;
  write_locked : bool
}.

(** A process that starts on the file [d]: no connection is open. *)
Definition start (d : database) : process :=
  {| file := d; write_locked := false |}.

(** What reaches the caller of a handler whose INSERT waits for the lock
    until the timeout: sqlite3.OperationalError "database is locked",
    through the except clause. *)
Definition database_is_locked {A : Type} : M A :=
  try_except (raise (OtherError "database is locked"))
             (fun e => raise (HTTPException 500 (str_exn e))).

(** A handler that writes (submit_quiz, create_user).
    - While the lock is held its INSERT fails; its own connection is
      abandoned too, but holds no lock.
    - Otherwise it runs as in [M]. When it answers, it has committed and
      closed its connection. When its INSERT is refused, the except clause
      leaves the connection open inside its transaction: the write lock
      stays held. *)
Definition run_write {A : Type} (handler : M A) (p : process)
  : outcome A * process :=
  if write_locked p
  then (fst (database_is_locked (file p)), p)
  else
    match handler (file p) with
    | (Return a, d') => (Return a, {| file := d'; write_locked := false |})
    | (Raise e, d') => (Raise e, {| file := d'; write_locked := true |})
    end.

(** A handler that only reads, or does not open the store: readers are not
    stopped by the write lock, and get_user_stats closes its connection
    before it raises. *)
Definition run_read {A : Type} (handler : M A) (p : process)
  : outcome A * process :=
  match handler (file p) with
  | (o, d') => (o, {| file := d'; write_locked := write_locked p |})
  end.

(** What happens to a process: a request arrives, or the garbage collector
    finalizes the abandoned connections, which rolls them back and frees
    the lock. *)
Inductive event : Type :=
| Request (now : datetime) (req : request)
| Collect.

Section Process.

Context {R : Runtime}.

Definition respond (now : datetime) (req : request) (p : process)
  : outcome response * process :=
  match req with
  | PostSubmitQuiz _ => run_write (app now req) p
  | PostCreateUser _ => run_write (app now req) p
  | _ => run_read (app now req) p
  end.

Definition step (ev : event) (p : process) : process :=
  match ev with
  | Request now req => snd (respond now req p)
  | Collect => {| file := file p; write_locked := false |}
  end.

Fixpoint run (events : list event) (p : process) : process :=
  match events with
  | [] => p
  | ev :: rest => run rest (step ev p)
  end.

(** The quiz_history rows of the submissions that were answered with
    success in the course of [events], in the order of their requests. *)
Fixpoint accepted_rows (events : list event) (p : process)
  : list quiz_history_row :=
  match events with
  | [] => []
  | ev :: rest =>
      match ev with
      | Request now (PostSubmitQuiz s) =>
          match fst (respond now (PostSubmitQuiz s) p) with
          | Return _ =>
              [{| qh_id := QuizSubmission.quiz_id s;
                  qh_user_id := QuizSubmission.user_id s;
                  qh_subject := QuizSubmission.subject s;
                  qh_score :=
                    Z.min 90
                      (Z.max 60 (hash (QuizSubmission.user_id s) mod 40 + 60));
                  qh_total_questions :=
                    Z.of_nat (List.length (QuizSubmission.answers s));
                  qh_timestamp := isoformat now |}]
          | Raise _ => []
          end
      | _ => []
      end ++ accepted_rows rest (step ev p)
  end.

End Process.

(** ** Scenarios for the examples *)

Module Scenario.

(** A submission, the same submission again, a creation and a stats request
    for an identifier nobody has. *)
Definition trace : list (datetime * request) :=
  [(Sample.morning, PostSubmitQuiz Sample.submission);
   (Sample.clock, PostSubmitQuiz Sample.submission);
   (Sample.clock, PostCreateUser Sample.ana);
   (Sample.clock, GetUserStats "nobody")].

(** Another user named Ana, with other subjects and another grade. *)
Definition ana_again : User.t :=
  {| User.name := "Ana";
     User.subjects := ["Physics"; "Art"];
     User.grade_level := "11" |}.

(** A second quiz request of user "u1", on another topic. *)
Definition geometry_quiz : QuizRequest.t :=
  {| QuizRequest.subject := "Math";
     QuizRequest.topic := "Geometry";
     QuizRequest.difficulty := "hard";
     QuizRequest.num_questions := 5;
     QuizRequest.user_id := "u1" |}.

(** The store after Ana was created at [Sample.clock]. *)
Definition with_ana : database :=
  snd (create_user (R := Sample.quiet) Sample.clock Sample.ana init_db).

(** A submission of the user created in [with_ana]. *)
Definition ana_submission : QuizSubmission.t :=
  {| QuizSubmission.user_id := "md5:Ana2025-01-01 10:00:00.000000";
     QuizSubmission.quiz_id := "q7";
     QuizSubmission.answers := ["A"; "C"; "D"];
     QuizSubmission.subject := "Math" |}.

(** The store after that submission. *)
Definition with_quiz : database :=
  snd (submit_quiz (R := Sample.quiet) Sample.clock ana_submission with_ana).

(** Two submissions under the identifier that generate_quiz derives for
    user "u1" at [Sample.clock]. *)
Definition first_submission : QuizSubmission.t :=
  {| QuizSubmission.user_id := "u1";
     QuizSubmission.quiz_id := "md5:u12025-01-01 10:00:00.000000";
     QuizSubmission.answers := ["A"];
     QuizSubmission.subject := "Math" |}.

Definition second_submission : QuizSubmission.t :=
  {| QuizSubmission.user_id := "u1";
     QuizSubmission.quiz_id := "md5:u12025-01-01 10:00:00.000000";
     QuizSubmission.answers := ["B"; "C"];
     QuizSubmission.subject := "Math" |}.

(** A process in which "q1" was submitted twice: the second INSERT was
    refused and its connection abandoned. *)
Definition after_refusal : process :=
  run (R := Sample.quiet)
    [Request Sample.morning (PostSubmitQuiz Sample.submission);
     Request Sample.clock (PostSubmitQuiz Sample.submission)]
    (start init_db).

(** The refused submission, a submission under a new identifier while the
    lock is held, a collection, and the new submission again. *)
Definition events : list event :=
  [Request Sample.morning (PostSubmitQuiz Sample.submission);
   Request Sample.clock (PostSubmitQuiz Sample.submission);
   Request Sample.clock (PostSubmitQuiz first_submission);
   Collect;
   Request Sample.clock (PostSubmitQuiz first_submission);
   Request Sample.clock (PostCreateUser Sample.ana)].

End Scenario.

(** * Properties *)

(** ** The monad and the store *)

Lemma find_app {A : Type} (f : A -> bool) (l l' : list A) :
  find f (l ++ l') =
  match find f l with
  | Some x => Some x
  | None => find f l'
  end.
Proof.
  induction l as [|a l IH]; simpl; [reflexivity|].
  destruct (f a); [reflexivity | exact IH].
Qed.

Lemma has_quiz_true (id : string) (d : database) :
  has_quiz id d = true <->
  exists row, In row (quiz_history d) /\ qh_id row = id.
Proof.
  unfold has_quiz. rewrite existsb_exists.
  split; intros [row [Hin Hid]]; exists row; split; trivial;
    now apply String.eqb_eq.
Qed.

Lemma has_user_false_find (id : string) (d : database) :
  has_user id d = false ->
  find (fun u => String.eqb (users_id u) id) (users d) = None.
Proof.
  unfold has_user. induction (users d) as [|u l IH]; simpl; [reflexivity|].
  destruct (String.eqb (users_id u) id); simpl; [discriminate | exact IH].
Qed.

(** ** The handlers, case by case *)

Section HandlerEquations.

Context {R : Runtime}.

(** submit_quiz either meets a row with the quiz identifier and fails, or
    appends its row and answers. *)
Lemma submit_quiz_eq (now : datetime) (s : QuizSubmission.t) (d : database) :
  submit_quiz now s d =
  if has_quiz (QuizSubmission.quiz_id s) d
  then (Raise (HTTPException 500 "UNIQUE constraint failed: quiz_history.id"), d)
  else
    let score := quiz_score (QuizSubmission.user_id s) in
    (Return {| SubmitResponse.score := score;
               SubmitResponse.total_questions :=
                 Z.of_nat (List.length (QuizSubmission.answers s));
               SubmitResponse.percentage := score;
               SubmitResponse.message :=
                 if 80 <=? score then "Great job!" else "Keep practicing!";
               SubmitResponse.xp_earned := score / 10 |},
     {| users := users d;
        quiz_history := quiz_history d ++ [submitted_row now s] |}).
Proof.
  unfold submit_quiz, except_500, try_except, bind, connect, lift,
    insert_quiz_history; simpl.
  destruct (has_quiz (QuizSubmission.quiz_id s) d); reflexivity.
Qed.

(** create_user either meets a row with the derived identifier and fails,
    or appends its row and answers. *)
Lemma create_user_eq (now : datetime) (u : User.t) (d : database) :
  create_user now u d =
  if has_user (new_user_id now u) d
  then (Raise (HTTPException 500 "UNIQUE constraint failed: users.id"), d)
  else
    (Return {| CreateResponse.user_id := new_user_id now u;
               CreateResponse.message := "User created successfully" |},
     {| users := users d ++ [created_row now u];
        quiz_history := quiz_history d |}).
Proof.
  unfold create_user, except_500, try_except, bind, connect, lift,
    insert_users; simpl.
  fold (new_user_id now u).
  destruct (has_user (new_user_id now u) d); reflexivity.
Qed.

(** generate_quiz: the model fails, or its text holds no bracketed span,
    or the span is decoded, or the decoder fails. The store is not
    touched. *)
Lemma generate_quiz_eq (now : datetime) (request : QuizRequest.t)
    (d : database) :
  generate_quiz now request d =
  match generate_content (quiz_prompt request) with
  | Raise e => (Raise (HTTPException 500 (str_exn e)), d)
  | Return text =>
      match Re.search true bracketed_array text with
      | None =>
          (Return (quiz_response now request
                     (fallback_quiz (QuizRequest.topic request))), d)
      | Some json_match =>
          match json_loads json_match with
          | Return quiz_data =>
              (Return (quiz_response now request quiz_data), d)
          | Raise e => (Raise (HTTPException 500 (str_exn e)), d)
          end
      end
  end.
Proof.
  unfold generate_quiz, except_500, try_except, bind, lift, ret, raise.
  destruct (generate_content (quiz_prompt request)) as [text|e];
    [|reflexivity].
  destruct (Re.search true bracketed_array text) as [json_match|];
    [|reflexivity].
  destruct (json_loads json_match); reflexivity.
Qed.

Lemma chat_with_ai_eq (now : datetime) (request : ChatRequest.t)
    (d : database) :
  chat_with_ai now request d =
  match generate_content (chat_prompt request) with
  | Return text =>
      (Return {| ChatResponse.response := text;
                 ChatResponse.timestamp := isoformat now |}, d)
  | Raise e => (Raise (HTTPException 500 (str_exn e)), d)
  end.
Proof.
  unfold chat_with_ai, except_500, try_except, bind, lift, ret, raise.
  destruct (generate_content (chat_prompt request)); reflexivity.
Qed.

End HandlerEquations.

(** get_user_stats: the row is found and reported with the aggregates, or
    the 404 raised inside the try block reaches the except clause. *)
Lemma get_user_stats_eq (user_id : string) (d : database) :
  get_user_stats user_id d =
  match find (fun u => String.eqb (users_id u) user_id) (users d) with
  | Some row =>
      (Return {| StatsResponse.user_id := users_id row;
                 StatsResponse.name := users_name row;
                 StatsResponse.level := users_level row;
                 StatsResponse.xp := users_xp row;
                 StatsResponse.subject_stats :=
                   map stat_of_row
                       (select_subject_stats {| working := d |} user_id) |},
       d)
  | None => (Raise (HTTPException 500 "404: User not found"), d)
  end.
Proof.
  unfold get_user_stats, except_500, try_except, bind, connect, close,
    select_user, ret, raise; simpl.
  destruct (find _ (users d)); reflexivity.
Qed.

(** ** What a request leaves of the users table *)

Lemma snd_bind_ret {A B : Type} (m : M A) (f : A -> B) (d : database) :
  snd (bind m (fun x => ret (f x)) d) = snd (m d).
Proof.
  unfold bind, ret. destruct (m d) as [[a|e] d']; reflexivity.
Qed.

Section Frame.

Context {R : Runtime}.

Lemma chat_with_ai_db (now : datetime) (request : ChatRequest.t)
    (d : database) :
  snd (chat_with_ai now request d) = d.
Proof.
  rewrite chat_with_ai_eq.
  destruct (generate_content (chat_prompt request)); reflexivity.
Qed.

Lemma generate_quiz_db (now : datetime) (request : QuizRequest.t)
    (d : database) :
  snd (generate_quiz now request d) = d.
Proof.
  rewrite generate_quiz_eq.
  destruct (generate_content (quiz_prompt request)) as [text|e];
    [|reflexivity].
  destruct (Re.search true bracketed_array text) as [m|]; [|reflexivity].
  destruct (json_loads m); reflexivity.
Qed.

Lemma get_user_stats_db (user_id : string) (d : database) :
  snd (get_user_stats user_id d) = d.
Proof.
  rewrite get_user_stats_eq. destruct (find _ (users d)); reflexivity.
Qed.

Lemma submit_quiz_users (now : datetime) (s : QuizSubmission.t)
    (d : database) :
  users (snd (submit_quiz now s d)) = users d.
Proof.
  rewrite submit_quiz_eq.
  destruct (has_quiz (QuizSubmission.quiz_id s) d); reflexivity.
Qed.

Lemma create_user_users (now : datetime) (u : User.t) (d : database) :
  exists added, users (snd (create_user now u d)) = (users d ++ added)%list.
Proof.
  rewrite create_user_eq. destruct (has_user (new_user_id now u) d).
  - exists []. simpl. now rewrite app_nil_r.
  - now exists [created_row now u].
Qed.

Lemma app_users (now : datetime) (req : request) (d : database) :
  exists added, users (snd (app now req d)) = (users d ++ added)%list.
Proof.
  destruct req as [|body|body|body|body|user_id]; unfold app;
    rewrite snd_bind_ret.
  - exists []. simpl. now rewrite app_nil_r.
  - exists []. now rewrite chat_with_ai_db, app_nil_r.
  - exists []. now rewrite generate_quiz_db, app_nil_r.
  - exists []. now rewrite submit_quiz_users, app_nil_r.
  - apply create_user_users.
  - exists []. now rewrite get_user_stats_db, app_nil_r.
Qed.

Lemma serve_users (trace : list (datetime * request)) (d : database) :
  exists added, users (serve trace d) = (users d ++ added)%list.
Proof.
  revert d. induction trace as [|[now req] rest IH]; intros d; simpl.
  - exists []. now rewrite app_nil_r.
  - destruct (IH (snd (app now req d))) as [added2 H2].
    destruct (app_users now req d) as [added1 H1].
    exists (added1 ++ added2)%list. now rewrite H2, H1, app_assoc.
Qed.

End Frame.

(** ** The bracketed-array pattern: from the first "[" to the last "]" *)

Section BracketedArray.

Local Abbreviation close := ("]"%char).
Local Abbreviation open := ("["%char).
Local Abbreviation rest_pattern := [Re.Star Re.Dot; Re.One (Re.Lit close)].

Lemma match_star_cons (dotall : bool) (a : Re.atom) (p : Re.pattern)
    (c : ascii) (s : string) :
  Re.match_here dotall (Re.Star a :: p) (String c s) =
  if Re.atom_matches dotall a c
  then match Re.match_here dotall (Re.Star a :: p) s with
       | Some n => Some (S n)
       | None => Re.match_here dotall p (String c s)
       end
  else Re.match_here dotall p (String c s).
Proof. reflexivity. Qed.

Lemma match_star_nil (dotall : bool) (a : Re.atom) (p : Re.pattern) :
  Re.match_here dotall (Re.Star a :: p) EmptyString =
  Re.match_here dotall p EmptyString.
Proof. reflexivity. Qed.

Lemma match_one_cons (dotall : bool) (a : Re.atom) (p : Re.pattern)
    (c : ascii) (s : string) :
  Re.match_here dotall (Re.One a :: p) (String c s) =
  if Re.atom_matches dotall a c
  then option_map S (Re.match_here dotall p s)
  else None.
Proof. reflexivity. Qed.

Lemma occurs_app (c : ascii) (a b : string) :
  occurs c (a ++ b) = occurs c a || occurs c b.
Proof.
  induction a as [|x a IH]; simpl; [reflexivity|].
  now rewrite IH, orb_assoc.
Qed.

(** Without a "]" the dot-star and the closing bracket find nothing. *)
Lemma rest_no_close (s : string) :
  occurs close s = false -> Re.match_here true rest_pattern s = None.
Proof.
  induction s as [|c s IH]; intros Hs.
  - reflexivity.
  - simpl in Hs. apply orb_false_elim in Hs as [Hc Hs].
    rewrite match_star_cons. simpl Re.atom_matches.
    rewrite (IH Hs), match_one_cons. simpl Re.atom_matches.
    now rewrite Hc.
Qed.

(** The dot-star runs to the last "]". *)
Lemma rest_to_last_close (mid post : string) :
  occurs close post = false ->
  Re.match_here true rest_pattern (mid ++ String close post) =
  Some (S (String.length mid)).
Proof.
  intros Hpost. induction mid as [|c mid IH].
  - simpl append. rewrite match_star_cons. simpl Re.atom_matches.
    rewrite (rest_no_close post Hpost), match_one_cons.
    reflexivity.
  - simpl append. rewrite match_star_cons. simpl Re.atom_matches.
    now rewrite IH.
Qed.

Lemma match_bracketed_cons (c : ascii) (s : string) :
  Re.match_here true bracketed_array (String c s) =
  if Ascii.eqb c open
  then option_map S (Re.match_here true rest_pattern s)
  else None.
Proof. reflexivity. Qed.

(** Text before the first "[" is skipped. *)
Lemma search_skip (pre s : string) :
  occurs open pre = false ->
  Re.search true bracketed_array (pre ++ s) = Re.search true bracketed_array s.
Proof.
  induction pre as [|c pre IH]; intros Hpre; [reflexivity|].
  simpl in Hpre. apply orb_false_elim in Hpre as [Hc Hpre].
  simpl append. unfold Re.search at 1; fold Re.search.
  rewrite match_bracketed_cons, Hc. now apply IH.
Qed.

Lemma search_no_close (s : string) :
  occurs close s = false -> Re.search true bracketed_array s = None.
Proof.
  induction s as [|c s IH]; intros Hs; [reflexivity|].
  simpl in Hs. apply orb_false_elim in Hs as [Hc Hs].
  unfold Re.search; fold Re.search.
  rewrite match_bracketed_cons, (rest_no_close s Hs).
  destruct (Ascii.eqb c open); simpl; now apply IH.
Qed.

Lemma search_no_open (s : string) :
  occurs open s = false -> Re.search true bracketed_array s = None.
Proof.
  induction s as [|c s IH]; intros Hs; [reflexivity|].
  simpl in Hs. apply orb_false_elim in Hs as [Hc Hs].
  unfold Re.search; fold Re.search.
  rewrite match_bracketed_cons, Hc. now apply IH.
Qed.

Lemma substring_prefix (a b : string) :
  substring 0 (String.length a) (a ++ b) = a.
Proof.
  induction a as [|c a IH]; simpl.
  - now destruct b.
  - now rewrite IH.
Qed.

(** re.search finds the text from the first "[" to the last "]". *)
Lemma search_bracketed (pre mid post : string) :
  occurs open pre = false ->
  occurs close post = false ->
  Re.search true bracketed_array
    (pre ++ String open (mid ++ String close post)) =
  Some (String open (mid ++ String close EmptyString)).
Proof.
  intros Hpre Hpost. rewrite (search_skip _ _ Hpre).
  unfold Re.search; fold Re.search.
  rewrite match_bracketed_cons, Ascii.eqb_refl,
    (rest_to_last_close mid post Hpost).
  cbn [option_map]. f_equal.
  change (String open (mid ++ String close post))
    with (String open mid ++ String close post)%string.
  replace (S (S (String.length mid)))
    with (String.length (String open mid ++ String close EmptyString)).
  - replace (String open mid ++ String close post)%string
      with ((String open mid ++ String close EmptyString) ++ post)%string.
    + apply substring_prefix.
    + simpl. f_equal. clear. induction mid; simpl; congruence.
  - simpl. f_equal. clear. induction mid; simpl; congruence.
Qed.

Lemma split_first_some (c : ascii) (s pre rest : string) :
  split_first c s = Some (pre, rest) ->
  s = (pre ++ String c rest)%string /\ occurs c pre = false.
Proof.
  revert pre. induction s as [|x s IH]; intros pre H; simpl in H.
  - discriminate.
  - destruct (Ascii.eqb x c) eqn:Hx.
    + inversion H; subst. apply Ascii.eqb_eq in Hx. now subst.
    + destruct (split_first c s) as [[pre' rest']|]; [|discriminate].
      inversion H; subst. destruct (IH pre' eq_refl) as [-> Hocc].
      simpl. now rewrite Hx, Hocc.
Qed.

Lemma split_first_none (c : ascii) (s : string) :
  split_first c s = None -> occurs c s = false.
Proof.
  induction s as [|x s IH]; simpl; intros H; [reflexivity|].
  destruct (Ascii.eqb x c); [discriminate|].
  destruct (split_first c s) as [[pre rest]|]; [discriminate|].
  now apply IH.
Qed.

Lemma split_last_none (c : ascii) (s : string) :
  split_last c s = None -> occurs c s = false.
Proof.
  induction s as [|x s IH]; simpl; intros H; [reflexivity|].
  destruct (split_last c s) as [[mid post]|]; [discriminate|].
  destruct (Ascii.eqb x c); [discriminate|]. now apply IH.
Qed.

Lemma split_last_some (c : ascii) (s mid post : string) :
  split_last c s = Some (mid, post) ->
  s = (mid ++ String c post)%string /\ occurs c post = false.
Proof.
  revert mid. induction s as [|x s IH]; intros mid H; simpl in H.
  - discriminate.
  - destruct (split_last c s) as [[mid' post']|] eqn:Hs.
    + inversion H; subst. destruct (IH mid' eq_refl) as [-> Hocc].
      now split.
    + destruct (Ascii.eqb x c) eqn:Hx; [|discriminate].
      inversion H; subst. apply Ascii.eqb_eq in Hx. subst.
      split; [reflexivity | now apply split_last_none].
Qed.

(** The search as a function of the text: cut at the first "[", then at the
    last "]" after it. *)
Lemma search_bracketed_spec (text : string) :
  Re.search true bracketed_array text =
  match split_first open text with
  | Some (_, rest) =>
      match split_last close rest with
      | Some (mid, _) => Some (String open (mid ++ String close EmptyString))
      | None => None
      end
  | None => None
  end.
Proof.
  destruct (split_first open text) as [[pre rest]|] eqn:Hfirst.
  - apply split_first_some in Hfirst as [-> Hpre].
    destruct (split_last close rest) as [[mid post]|] eqn:Hlast.
    + apply split_last_some in Hlast as [-> Hpost].
      now apply search_bracketed.
    + apply split_last_none in Hlast.
      rewrite (search_skip _ _ Hpre).
      unfold Re.search; fold Re.search.
      rewrite match_bracketed_cons, Ascii.eqb_refl, (rest_no_close _ Hlast).
      now apply search_no_close.
  - now apply search_no_open, split_first_none.
Qed.

End BracketedArray.

Lemma filter_none {A : Type} (f : A -> bool) (l : list A) :
  (forall x, In x l -> f x = false) -> filter f l = [].
Proof.
  induction l as [|a l IH]; intros H; simpl; [reflexivity|].
  rewrite (H a (or_introl eq_refl)). apply IH.
  intros x Hx. apply H. now right.
Qed.

Lemma no_user_has_user (id : string) (d : database) :
  (forall row, In row (users d) -> users_id row <> id) ->
  has_user id d = false.
Proof.
  intros H. unfold has_user.
  destruct (existsb _ (users d)) eqn:E; [|reflexivity].
  apply existsb_exists in E as [row [Hin Hid]].
  apply String.eqb_eq in Hid. now elim (H row Hin).
Qed.

(** ** User statistics *)

(** C1 (a defect of the code). For an identifier with no row in users the
    handler raises its 404 inside the try block; the except clause catches
    it like any other exception and the caller gets status 500, with the
    text of the 404 as detail. The claim's 404 never leaves the handler. *)
Theorem get_user_stats_unknown_user (user_id : string) (d : database) :
  (forall row, In row (users d) -> users_id row <> user_id) ->
  get_user_stats user_id d =
  (Raise (HTTPException 500 "404: User not found"), d).
Proof.
  intros Habsent. rewrite get_user_stats_eq.
  now rewrite (has_user_false_find _ _ (no_user_has_user _ _ Habsent)).
Qed.

Lemma get_user_stats_unknown_user_witness :
  get_user_stats "nobody" init_db =
  (Raise (HTTPException 500 "404: User not found"), init_db).
Proof.
  apply (get_user_stats_unknown_user "nobody" init_db).
  intros row Hin. destruct Hin.
Defined.

(** ** Quiz generation *)

Section QuizGeneration.

Context {R : Runtime}.

(** Text without a bracketed span gets the placeholder quiz: one question
    about the topic, four options, answer "A". *)
Lemma generate_quiz_no_array (now : datetime) (request : QuizRequest.t)
    (d : database) (text : string) :
  generate_content (quiz_prompt request) = Return text ->
  Re.search true bracketed_array text = None ->
  generate_quiz now request d =
  (Return (quiz_response now request
             (PyList
                [PyDict
                   [("question",
                     PyStr ("Sample question about "
                            ++ QuizRequest.topic request ++ "?"));
                    ("options",
                     PyList [PyStr "A) Option 1"; PyStr "B) Option 2";
                             PyStr "C) Option 3"; PyStr "D) Option 4"]);
                    ("correct_answer", PyStr "A");
                    ("explanation", PyStr "This is a sample explanation.")]])),
   d).
Proof.
  intros Htext Hnone. now rewrite generate_quiz_eq, Htext, Hnone.
Qed.

(** C2 (a defect of the code). When the text of the model holds a bracketed
    span that json.loads refuses, the decoder's exception reaches the
    except clause: the caller gets status 500 with the decoder's message.
    The placeholder quiz is returned only when no span is found
    ([generate_quiz_no_array]), against the claim that quiz generation
    never fails on malformed model output. *)
Theorem generate_quiz_invalid_json (now : datetime) (request : QuizRequest.t)
    (d : database) (text json_match : string) (e : exn) :
  generate_content (quiz_prompt request) = Return text ->
  Re.search true bracketed_array text = Some json_match ->
  json_loads json_match = Raise e ->
  generate_quiz now request d = (Raise (HTTPException 500 (str_exn e)), d).
Proof.
  intros Htext Hmatch Hloads.
  now rewrite generate_quiz_eq, Htext, Hmatch, Hloads.
Qed.

(** C4, as amended. When the span from the first "[" to the last "]" of the
    model's text decodes as JSON, the search extracts that span and the
    handler answers with exactly the decoded value as its question list,
    next to the derived quiz identifier and the echoed subject, topic and
    difficulty. *)
Theorem generate_quiz_returns_parsed_array (now : datetime)
    (request : QuizRequest.t) (d : database) (pre mid post : string)
    (quiz_data : pyobj) :
  generate_content (quiz_prompt request) =
    Return (pre ++ "[" ++ mid ++ "]" ++ post) ->
  occurs "["%char pre = false ->
  occurs "]"%char post = false ->
  json_loads ("[" ++ mid ++ "]") = Return quiz_data ->
  Re.search true bracketed_array (pre ++ "[" ++ mid ++ "]" ++ post) =
    Some ("[" ++ mid ++ "]") /\
  generate_quiz now request d =
  (Return {| QuizResponse.quiz_id :=
               md5_hexdigest (QuizRequest.user_id request ++ str_datetime now);
             QuizResponse.questions := quiz_data;
             QuizResponse.subject := QuizRequest.subject request;
             QuizResponse.topic := QuizRequest.topic request;
             QuizResponse.difficulty := QuizRequest.difficulty request |},
   d).
Proof.
  intros Htext Hpre Hpost Hloads.
  pose proof (search_bracketed pre mid post Hpre Hpost) as Hsearch.
  change (pre ++ String "[" (mid ++ String "]" post))%string
    with (pre ++ "[" ++ mid ++ "]" ++ post)%string in Hsearch.
  change (String "[" (mid ++ String "]" EmptyString))
    with ("[" ++ mid ++ "]")%string in Hsearch.
  split; [exact Hsearch|].
  now rewrite generate_quiz_eq, Htext, Hsearch, Hloads.
Qed.

End QuizGeneration.

Lemma generate_quiz_invalid_json_witness :
  generate_quiz (R := Sample.runtime (Return "Sure! [oops]"))
    Sample.clock Sample.algebra_quiz init_db =
  (Raise (HTTPException 500 "Expecting value"), init_db).
Proof.
  apply (generate_quiz_invalid_json (R := Sample.runtime (Return "Sure! [oops]"))
           Sample.clock Sample.algebra_quiz init_db
           "Sure! [oops]" "[oops]" (JSONDecodeError "Expecting value"));
    reflexivity.
Defined.

Lemma generate_quiz_returns_parsed_array_witness :
  generate_quiz (R := Sample.runtime (Return "Here: [1, [2]] done"))
    Sample.clock Sample.algebra_quiz init_db =
  (Return {| QuizResponse.quiz_id := "md5:u12025-01-01 10:00:00.000000";
             QuizResponse.questions := PyList [PyInt 1; PyList [PyInt 2]];
             QuizResponse.subject := "Math";
             QuizResponse.topic := "Algebra";
             QuizResponse.difficulty := "easy" |},
   init_db).
Proof.
  apply (generate_quiz_returns_parsed_array
           (R := Sample.runtime (Return "Here: [1, [2]] done"))
           Sample.clock Sample.algebra_quiz init_db
           "Here: " "1, [2]" " done" (PyList [PyInt 1; PyList [PyInt 2]]));
    reflexivity.
Defined.

(** ** Quiz submission *)

Section QuizSubmission.

Context {R : Runtime}.

Lemma quiz_score_bounds (user_id : string) :
  60 <= quiz_score user_id <= 90.
Proof.
  unfold quiz_score.
  pose proof (Z.mod_pos_bound (hash user_id) 40 eq_refl). lia.
Qed.

(** A submission answers exactly when no row has its quiz identifier. *)
Lemma submit_quiz_returns (now : datetime) (s : QuizSubmission.t)
    (d d' : database) (r : SubmitResponse.t) :
  submit_quiz now s d = (Return r, d') ->
  has_quiz (QuizSubmission.quiz_id s) d = false /\
  SubmitResponse.score r = quiz_score (QuizSubmission.user_id s) /\
  SubmitResponse.percentage r = quiz_score (QuizSubmission.user_id s) /\
  SubmitResponse.xp_earned r = quiz_score (QuizSubmission.user_id s) / 10 /\
  SubmitResponse.message r =
    (if 80 <=? quiz_score (QuizSubmission.user_id s)
     then "Great job!" else "Keep practicing!") /\
  d' = {| users := users d;
          quiz_history := quiz_history d ++ [submitted_row now s] |}.
Proof.
  rewrite submit_quiz_eq.
  destruct (has_quiz (QuizSubmission.quiz_id s) d); [discriminate|].
  intros H. inversion H; subst. now repeat split.
Qed.

(** C3. The score a submission returns lies in [60, 99]; it is the clamp
    of hash(user_id) % 40 + 60, so two submissions under the same user
    identifier get the same score whatever their answers, quiz, subject,
    time and store. *)
Theorem submit_quiz_score_in_range (now : datetime) (s : QuizSubmission.t)
    (d d' : database) (r : SubmitResponse.t) :
  submit_quiz now s d = (Return r, d') ->
  60 <= SubmitResponse.score r <= 99 /\
  SubmitResponse.score r =
    Z.min 90 (Z.max 60 (hash (QuizSubmission.user_id s) mod 40 + 60)) /\
  (forall now2 s2 d2 d2' r2,
      QuizSubmission.user_id s2 = QuizSubmission.user_id s ->
      submit_quiz now2 s2 d2 = (Return r2, d2') ->
      SubmitResponse.score r2 = SubmitResponse.score r).
Proof.
  intros H. apply submit_quiz_returns in H as (_ & Hscore & _).
  rewrite Hscore. split; [|split].
  - pose proof (quiz_score_bounds (QuizSubmission.user_id s)). lia.
  - reflexivity.
  - intros now2 s2 d2 d2' r2 Hid H2.
    apply submit_quiz_returns in H2 as (_ & Hscore2 & _).
    now rewrite Hscore2, Hid.
Qed.

(** C5. In the answer to a submission xp_earned is score // 10, percentage
    is the score itself, and the message is "Great job!" exactly when the
    score is at least 80, "Keep practicing!" otherwise. *)
Theorem submit_quiz_response_fields (now : datetime) (s : QuizSubmission.t)
    (d d' : database) (r : SubmitResponse.t) :
  submit_quiz now s d = (Return r, d') ->
  SubmitResponse.xp_earned r = SubmitResponse.score r / 10 /\
  SubmitResponse.percentage r = SubmitResponse.score r /\
  (SubmitResponse.message r = "Great job!" <-> 80 <= SubmitResponse.score r) /\
  (SubmitResponse.message r = "Keep practicing!" <->
   SubmitResponse.score r < 80).
Proof.
  intros H.
  apply submit_quiz_returns in H as (_ & Hscore & Hpct & Hxp & Hmsg & _).
  rewrite Hscore, Hpct, Hxp, Hmsg.
  repeat split; try reflexivity;
    destruct (80 <=? quiz_score (QuizSubmission.user_id s)) eqn:E;
    try apply Z.leb_le in E; try apply Z.leb_gt in E;
    intros; try discriminate; try lia; reflexivity.
Qed.

(** C6. A submission that answers has appended one row to quiz_history:
    the row carries the submitted quiz identifier, user identifier and
    subject, the returned score, and the number of submitted answers as
    total_questions; the rows that were there are unchanged and in place,
    and the users table is as before. *)
Theorem submit_quiz_inserts_one_row (now : datetime) (s : QuizSubmission.t)
    (d d' : database) (r : SubmitResponse.t) :
  submit_quiz now s d = (Return r, d') ->
  exists row,
    quiz_history d' = (quiz_history d ++ [row])%list /\
    qh_id row = QuizSubmission.quiz_id s /\
    qh_user_id row = QuizSubmission.user_id s /\
    qh_subject row = QuizSubmission.subject s /\
    qh_score row = SubmitResponse.score r /\
    qh_total_questions row =
      Z.of_nat (List.length (QuizSubmission.answers s)) /\
    SubmitResponse.total_questions r =
      Z.of_nat (List.length (QuizSubmission.answers s)) /\
    users d' = users d.
Proof.
  rewrite submit_quiz_eq.
  destruct (has_quiz (QuizSubmission.quiz_id s) d); [discriminate|].
  intros H. inversion H; subst; clear H.
  exists (submitted_row now s). now repeat split.
Qed.

(** C9. The score a submission returns never exceeds 90: the outer min
    caps it, so a hash with hash % 40 at 30 or more gives 90, where the
    sum alone would give 90 to 99. *)
Theorem submit_quiz_score_at_most_90 (now : datetime) (s : QuizSubmission.t)
    (d d' : database) (r : SubmitResponse.t) :
  submit_quiz now s d = (Return r, d') ->
  60 <= SubmitResponse.score r <= 90 /\
  (30 <= hash (QuizSubmission.user_id s) mod 40 ->
   SubmitResponse.score r = 90).
Proof.
  intros H. apply submit_quiz_returns in H as (_ & Hscore & _).
  rewrite Hscore. split.
  - apply quiz_score_bounds.
  - unfold quiz_score. lia.
Qed.

(** C10. A submission whose quiz identifier is the id of a row of
    quiz_history fails with status 500, carrying the message of the
    primary-key violation, and the store is as it was: no row is
    inserted. *)
Theorem submit_quiz_duplicate_id (now : datetime) (s : QuizSubmission.t)
    (d : database) :
  (exists row, In row (quiz_history d) /\
               qh_id row = QuizSubmission.quiz_id s) ->
  submit_quiz now s d =
  (Raise (HTTPException 500 "UNIQUE constraint failed: quiz_history.id"), d).
Proof.
  intros Hdup. apply has_quiz_true in Hdup.
  now rewrite submit_quiz_eq, Hdup.
Qed.

(** C8. No operation changes a row of users once it is there. A quiz
    submission leaves the users table as it was, whether it answers or
    fails; after any sequence of requests the users table is the one
    before, row for row, followed by the rows of the users created since. *)
Theorem users_rows_never_mutated :
  (forall now s d, users (snd (submit_quiz now s d)) = users d) /\
  (forall now req d,
      exists added, users (snd (app now req d)) = (users d ++ added)%list) /\
  (forall trace d,
      exists added, users (serve trace d) = (users d ++ added)%list).
Proof.
  split; [|split].
  - apply submit_quiz_users.
  - apply app_users.
  - apply serve_users.
Qed.

End QuizSubmission.

Lemma submit_quiz_score_in_range_witness :
  exists r d',
    submit_quiz (R := Sample.quiet) Sample.clock Sample.submission init_db =
      (Return r, d') /\
    60 <= SubmitResponse.score r <= 99.
Proof.
  eexists. eexists. split; [reflexivity|].
  apply (submit_quiz_score_in_range (R := Sample.quiet)
           Sample.clock Sample.submission init_db _ _ eq_refl).
Defined.

Lemma submit_quiz_response_fields_witness :
  exists r d',
    submit_quiz (R := Sample.quiet) Sample.clock Sample.submission init_db =
      (Return r, d') /\
    SubmitResponse.xp_earned r = SubmitResponse.score r / 10 /\
    SubmitResponse.percentage r = SubmitResponse.score r.
Proof.
  eexists. eexists. split; [reflexivity|].
  destruct (submit_quiz_response_fields (R := Sample.quiet)
              Sample.clock Sample.submission init_db _ _ eq_refl)
    as (Hxp & Hpct & _).
  exact (conj Hxp Hpct).
Defined.

Lemma submit_quiz_inserts_one_row_witness :
  exists r d' row,
    submit_quiz (R := Sample.quiet) Sample.clock Sample.submission init_db =
      (Return r, d') /\
    quiz_history d' = [row] /\ qh_total_questions row = 2.
Proof.
  eexists. eexists.
  destruct (submit_quiz_inserts_one_row (R := Sample.quiet)
              Sample.clock Sample.submission init_db _ _ eq_refl)
    as (row & Hrows & _ & _ & _ & _ & Htotal & _).
  exists row. split; [reflexivity|]. split; [exact Hrows | exact Htotal].
Defined.

Lemma submit_quiz_score_at_most_90_witness :
  exists r d',
    submit_quiz (R := Sample.quiet) Sample.clock Sample.submission init_db =
      (Return r, d') /\
    60 <= SubmitResponse.score r <= 90.
Proof.
  eexists. eexists. split; [reflexivity|].
  apply (submit_quiz_score_at_most_90 (R := Sample.quiet)
           Sample.clock Sample.submission init_db _ _ eq_refl).
Defined.

Lemma submit_quiz_duplicate_id_witness :
  let d1 := snd (submit_quiz (R := Sample.quiet)
                   Sample.morning Sample.submission init_db) in
  has_quiz "q1" d1 = true /\
  submit_quiz (R := Sample.quiet) Sample.clock Sample.submission d1 =
  (Raise (HTTPException 500 "UNIQUE constraint failed: quiz_history.id"), d1).
Proof.
  split; [reflexivity|].
  apply (submit_quiz_duplicate_id (R := Sample.quiet)).
  eexists. split; [left; reflexivity | reflexivity].
Defined.

(** ** A new user and their statistics *)

Section NewUser.

Context {R : Runtime}.

(** C7, as amended. When create_user answers and no row of quiz_history
    carries the identifier it returns, the statistics of that identifier,
    requested next, are the created name, level 1, xp 0 and no subject
    statistics. *)
Theorem stats_after_create_user (now : datetime) (user : User.t)
    (d d1 : database) (created : CreateResponse.t) :
  create_user now user d = (Return created, d1) ->
  (forall q, In q (quiz_history d) ->
             qh_user_id q <> CreateResponse.user_id created) ->
  get_user_stats (CreateResponse.user_id created) d1 =
  (Return {| StatsResponse.user_id := CreateResponse.user_id created;
             StatsResponse.name := User.name user;
             StatsResponse.level := 1;
             StatsResponse.xp := 0;
             StatsResponse.subject_stats := [] |},
   d1).
Proof.
  rewrite create_user_eq.
  destruct (has_user (new_user_id now user) d) eqn:Hnew; [discriminate|].
  intros H Hhistory. inversion H; subst; clear H. simpl in *.
  rewrite get_user_stats_eq. simpl users.
  rewrite find_app, (has_user_false_find _ _ Hnew). simpl find.
  rewrite String.eqb_refl. unfold select_subject_stats. simpl.
  rewrite filter_none; [reflexivity|].
  intros q Hq. apply String.eqb_neq. now apply Hhistory.
Qed.

End NewUser.

Lemma stats_after_create_user_witness :
  exists created d1,
    create_user (R := Sample.quiet) Sample.clock Sample.ana init_db =
      (Return created, d1) /\
    get_user_stats (CreateResponse.user_id created) d1 =
    (Return {| StatsResponse.user_id := CreateResponse.user_id created;
               StatsResponse.name := "Ana";
               StatsResponse.level := 1;
               StatsResponse.xp := 0;
               StatsResponse.subject_stats := [] |},
     d1).
Proof.
  eexists. eexists. split; [reflexivity|].
  apply (stats_after_create_user (R := Sample.quiet)
           Sample.clock Sample.ana init_db _ _ eq_refl).
  intros q Hq. destruct Hq.
Defined.

(** C7, as stated, fails: a quiz submitted under an identifier before the
    user with that identifier is created is counted in the statistics. At
    09:00 a quiz is submitted under the identifier that create_user derives
    for "Ana" at 10:00; the user is created at 10:00 and the statistics
    requested next list one quiz in Math. *)
Lemma stats_after_create_user_counterexample :
  let d0 := snd (submit_quiz (R := Sample.quiet)
                   Sample.morning Sample.early_submission init_db) in
  exists d1 stats,
    create_user (R := Sample.quiet) Sample.clock Sample.ana d0 =
      (Return {| CreateResponse.user_id := "md5:Ana2025-01-01 10:00:00.000000";
                 CreateResponse.message := "User created successfully" |},
       d1) /\
    get_user_stats "md5:Ana2025-01-01 10:00:00.000000" d1 =
      (Return stats, d1) /\
    StatsResponse.subject_stats stats =
      [{| StatsResponse.subject := "Math";
          StatsResponse.average_score := (69 # 1)%Q;
          StatsResponse.quiz_count := 1 |}] /\
    StatsResponse.subject_stats stats <> [].
Proof.
  eexists. eexists.
  split; [reflexivity|]. split; [reflexivity|].
  split; [reflexivity | discriminate].
Defined.

(** * Further properties of the handlers *)

(** ** The store under any sequence of requests *)

Lemma fst_bind_ret {A B : Type} (m : M A) (f : A -> B) (d : database) :
  fst (bind m (fun x => ret (f x)) d) =
  match fst (m d) with
  | Return a => Return (f a)
  | Raise e => Raise e
  end.
Proof.
  unfold bind, ret. destruct (m d) as [[a|e] d']; reflexivity.
Qed.

Lemma has_quiz_false_fresh (id : string) (d : database) :
  has_quiz id d = false -> ~ In id (map qh_id (quiz_history d)).
Proof.
  intros Hfresh Hin. apply in_map_iff in Hin as [row [Hid Hin]].
  assert (has_quiz id d = true) as Htrue
    by (apply has_quiz_true; now exists row).
  congruence.
Qed.

Lemma has_user_false_fresh (id : string) (d : database) :
  has_user id d = false -> ~ In id (map users_id (users d)).
Proof.
  unfold has_user. intros Hfresh Hin.
  apply in_map_iff in Hin as [row [Hid Hin]].
  assert (existsb (fun u => String.eqb (users_id u) id) (users d) = true)
    as Htrue
    by (apply existsb_exists; exists row; split;
        [exact Hin | now apply String.eqb_eq]).
  congruence.
Qed.

Lemma NoDup_map_snoc {A B : Type} (f : A -> B) (l : list A) (a : A) :
  NoDup (map f l) -> ~ In (f a) (map f l) -> NoDup (map f (l ++ [a])).
Proof.
  intros Hl Ha. rewrite map_app. apply NoDup_app; simpl.
  - exact Hl.
  - constructor; [intros [] | constructor].
  - intros b Hb [Heq | []]. subst. now apply Ha.
Qed.

Section Store.

Context {R : Runtime}.

Lemma submit_quiz_quiz_history (now : datetime) (s : QuizSubmission.t)
    (d : database) :
  exists added,
    quiz_history (snd (submit_quiz now s d)) = (quiz_history d ++ added)%list.
Proof.
  rewrite submit_quiz_eq.
  destruct (has_quiz (QuizSubmission.quiz_id s) d).
  - exists []. simpl. now rewrite app_nil_r.
  - now exists [submitted_row now s].
Qed.

Lemma create_user_quiz_history (now : datetime) (u : User.t) (d : database) :
  quiz_history (snd (create_user now u d)) = quiz_history d.
Proof.
  rewrite create_user_eq.
  destruct (has_user (new_user_id now u) d); reflexivity.
Qed.

Lemma app_quiz_history (now : datetime) (req : request) (d : database) :
  exists added,
    quiz_history (snd (app now req d)) = (quiz_history d ++ added)%list.
Proof.
  destruct req as [|body|body|body|body|user_id]; unfold app;
    rewrite snd_bind_ret.
  - exists []. simpl. now rewrite app_nil_r.
  - exists []. now rewrite chat_with_ai_db, app_nil_r.
  - exists []. now rewrite generate_quiz_db, app_nil_r.
  - apply submit_quiz_quiz_history.
  - exists []. now rewrite create_user_quiz_history, app_nil_r.
  - exists []. now rewrite get_user_stats_db, app_nil_r.
Qed.

(** Through the handlers of [M] quiz_history only grows at its end. *)
Lemma serve_quiz_history (trace : list (datetime * request))
    (d : database) :
  exists added,
    quiz_history (serve trace d) = (quiz_history d ++ added)%list.
Proof.
  revert d. induction trace as [|[now req] rest IH]; intros d; simpl.
  - exists []. now rewrite app_nil_r.
  - destruct (IH (snd (app now req d))) as [added2 H2].
    destruct (app_quiz_history now req d) as [added1 H1].
    exists (added1 ++ added2)%list. now rewrite H2, H1, app_assoc.
Qed.

Lemma app_keys (now : datetime) (req : request) (d : database) :
  NoDup (map users_id (users d)) ->
  NoDup (map qh_id (quiz_history d)) ->
  NoDup (map users_id (users (snd (app now req d)))) /\
  NoDup (map qh_id (quiz_history (snd (app now req d)))).
Proof.
  intros Hu Hq.
  destruct req as [|body|body|body|body|user_id]; unfold app;
    rewrite snd_bind_ret.
  - now split.
  - now rewrite chat_with_ai_db.
  - now rewrite generate_quiz_db.
  - rewrite submit_quiz_eq.
    destruct (has_quiz (QuizSubmission.quiz_id body) d) eqn:Hfresh;
      simpl; [now split|].
    split; [exact Hu|].
    apply NoDup_map_snoc; [exact Hq|].
    now apply has_quiz_false_fresh.
  - rewrite create_user_eq.
    destruct (has_user (new_user_id now body) d) eqn:Hfresh;
      simpl; [now split|].
    split; [|exact Hq].
    apply NoDup_map_snoc; [exact Hu|].
    now apply has_user_false_fresh.
  - now rewrite get_user_stats_db.
Qed.

(** X1. The primary keys hold: when the ids of users are pairwise distinct
    and the ids of quiz_history are pairwise distinct, they still are after
    any sequence of requests. *)
Theorem primary_keys_stay_unique (trace : list (datetime * request))
    (d : database) :
  NoDup (map users_id (users d)) ->
  NoDup (map qh_id (quiz_history d)) ->
  NoDup (map users_id (users (serve trace d))) /\
  NoDup (map qh_id (quiz_history (serve trace d))).
Proof.
  revert d. induction trace as [|[now req] rest IH]; intros d Hu Hq; simpl.
  - now split.
  - destruct (app_keys now req d Hu Hq) as [Hu' Hq']. now apply IH.
Qed.

(** ** Failures *)

Lemma chat_with_ai_fails (now : datetime) (request : ChatRequest.t)
    (d : database) (e : exn) :
  fst (chat_with_ai now request d) = Raise e ->
  exists detail, e = HTTPException 500 detail.
Proof.
  rewrite chat_with_ai_eq.
  destruct (generate_content (chat_prompt request)) as [text|e'];
    simpl; intros H; [discriminate|].
  inversion H. now eexists.
Qed.

Lemma generate_quiz_fails (now : datetime) (request : QuizRequest.t)
    (d : database) (e : exn) :
  fst (generate_quiz now request d) = Raise e ->
  exists detail, e = HTTPException 500 detail.
Proof.
  rewrite generate_quiz_eq.
  destruct (generate_content (quiz_prompt request)) as [text|e1]; simpl.
  - destruct (Re.search true bracketed_array text) as [m|]; simpl.
    + destruct (json_loads m) as [v|e2]; simpl; intros H;
        [discriminate|]. inversion H. now eexists.
    + discriminate.
  - intros H. inversion H. now eexists.
Qed.

Lemma submit_quiz_fails (now : datetime) (s : QuizSubmission.t)
    (d : database) (e : exn) :
  fst (submit_quiz now s d) = Raise e ->
  (exists detail, e = HTTPException 500 detail) /\
  snd (submit_quiz now s d) = d.
Proof.
  rewrite submit_quiz_eq.
  destruct (has_quiz (QuizSubmission.quiz_id s) d); simpl; intros H;
    [|discriminate].
  inversion H. split; [now eexists | reflexivity].
Qed.

Lemma create_user_fails (now : datetime) (u : User.t) (d : database)
    (e : exn) :
  fst (create_user now u d) = Raise e ->
  (exists detail, e = HTTPException 500 detail) /\
  snd (create_user now u d) = d.
Proof.
  rewrite create_user_eq.
  destruct (has_user (new_user_id now u) d); simpl; intros H;
    [|discriminate].
  inversion H. split; [now eexists | reflexivity].
Qed.

Lemma get_user_stats_fails (user_id : string) (d : database) (e : exn) :
  fst (get_user_stats user_id d) = Raise e ->
  exists detail, e = HTTPException 500 detail.
Proof.
  rewrite get_user_stats_eq.
  destruct (find _ (users d)); simpl; intros H; [discriminate|].
  inversion H. now eexists.
Qed.

(** X3. Whatever the request, a failure reaches the caller as an
    HTTPException with status 500, never with another status, and a request
    that fails leaves the store as it was. *)
Theorem failure_is_500_and_keeps_store (now : datetime) (req : request)
    (d : database) (e : exn) :
  fst (app now req d) = Raise e ->
  (exists detail, e = HTTPException 500 detail) /\
  snd (app now req d) = d.
Proof.
  destruct req as [|body|body|body|body|user_id]; unfold app;
    rewrite fst_bind_ret, snd_bind_ret.
  - discriminate.
  - destruct (fst (chat_with_ai now body d)) eqn:E; intros H;
      [discriminate|]. inversion H; subst.
    split; [now apply chat_with_ai_fails in E | apply chat_with_ai_db].
  - destruct (fst (generate_quiz now body d)) eqn:E; intros H;
      [discriminate|]. inversion H; subst.
    split; [now apply generate_quiz_fails in E | apply generate_quiz_db].
  - destruct (fst (submit_quiz now body d)) eqn:E; intros H;
      [discriminate|]. inversion H; subst.
    now apply submit_quiz_fails.
  - destruct (fst (create_user now body d)) eqn:E; intros H;
      [discriminate|]. inversion H; subst.
    now apply create_user_fails.
  - destruct (fst (get_user_stats user_id d)) eqn:E; intros H;
      [discriminate|]. inversion H; subst.
    split; [now apply get_user_stats_fails in E | apply get_user_stats_db].
Qed.

(** X4. The root, chat, quiz-generation and statistics handlers never write
    to the store, whatever the model says and whether they answer or
    fail: a generated quiz is not kept anywhere. *)
Theorem read_only_handlers :
  (forall d, snd (root d) = d) /\
  (forall now request d, snd (chat_with_ai now request d) = d) /\
  (forall now request d, snd (generate_quiz now request d) = d) /\
  (forall user_id d, snd (get_user_stats user_id d) = d).
Proof.
  repeat split.
  - apply chat_with_ai_db.
  - apply generate_quiz_db.
  - apply get_user_stats_db.
Qed.

End Store.

Lemma primary_keys_stay_unique_witness :
  NoDup (map users_id (users (serve (R := Sample.quiet) Scenario.trace init_db))) /\
  NoDup (map qh_id
           (quiz_history (serve (R := Sample.quiet) Scenario.trace init_db))).
Proof.
  apply (primary_keys_stay_unique (R := Sample.quiet) Scenario.trace init_db);
    constructor.
Defined.

Lemma failure_is_500_and_keeps_store_witness :
  (exists detail,
      HTTPException 500 "404: User not found" = HTTPException 500 detail) /\
  snd (app (R := Sample.quiet) Sample.clock (GetUserStats "nobody") init_db) =
  init_db.
Proof.
  apply (failure_is_500_and_keeps_store (R := Sample.quiet)
           Sample.clock (GetUserStats "nobody") init_db).
  reflexivity.
Defined.

(** ** What the bracketed-array search finds, and the placeholder quiz *)

Lemma append_assoc (a b c : string) :
  ((a ++ b) ++ c)%string = (a ++ b ++ c)%string.
Proof.
  induction a as [|x a IH]; simpl; [reflexivity | now rewrite IH].
Qed.

Lemma occurs_split_last (c : ascii) (s : string) :
  occurs c s = true -> exists mid post, split_last c s = Some (mid, post).
Proof.
  intros Hocc. destruct (split_last c s) as [[mid post]|] eqn:E.
  - now exists mid, post.
  - apply split_last_none in E. congruence.
Qed.

(** The text after the first [c] of [pre ++ c :: x] ends with [x]. *)
Lemma split_first_keeps_suffix (c : ascii) (pre x pre' rest' : string) :
  split_first c (pre ++ String c x) = Some (pre', rest') ->
  exists y, rest' = (y ++ x)%string.
Proof.
  revert pre'. induction pre as [|a pre IH]; intros pre' H; simpl in H.
  - rewrite Ascii.eqb_refl in H. inversion H; subst. now exists EmptyString.
  - destruct (Ascii.eqb a c).
    + inversion H; subst. exists (pre ++ String c EmptyString)%string.
      now rewrite append_assoc.
    + destruct (split_first c (pre ++ String c x)) as [[p r]|] eqn:E;
        [|discriminate].
      inversion H; subst. now apply (IH p).
Qed.

Lemma occurs_split_first (c : ascii) (s : string) :
  occurs c s = true -> exists pre rest, split_first c s = Some (pre, rest).
Proof.
  intros Hocc. destruct (split_first c s) as [[pre rest]|] eqn:E.
  - now exists pre, rest.
  - apply split_first_none in E. congruence.
Qed.

(** X6. What re.search returns for the bracketed-array pattern is a piece of
    the text that starts with "[" and ends with "]", with no "[" before it
    and no "]" after it: the span from the first "[" to the last "]". *)
Theorem search_result_is_first_to_last (text json_match : string) :
  Re.search true bracketed_array text = Some json_match ->
  exists pre mid post,
    text = (pre ++ json_match ++ post)%string /\
    json_match = ("[" ++ mid ++ "]")%string /\
    occurs "["%char pre = false /\
    occurs "]"%char post = false.
Proof.
  rewrite search_bracketed_spec.
  destruct (split_first "["%char text) as [[pre rest]|] eqn:Hfirst;
    [|discriminate].
  destruct (split_last "]"%char rest) as [[mid post]|] eqn:Hlast;
    [|discriminate].
  intros H. inversion H; subst; clear H.
  apply split_first_some in Hfirst as [-> Hpre].
  apply split_last_some in Hlast as [-> Hpost].
  exists pre, mid, post. repeat split; trivial.
  simpl. do 2 f_equal.
  change (String "]" post) with ("]" ++ post)%string.
  now rewrite <- append_assoc.
Qed.

(** The search finds nothing exactly when no "[" of the text has a "]"
    somewhere after it. *)
Lemma search_none_iff (text : string) :
  Re.search true bracketed_array text = None <->
  (forall pre mid post, text <> (pre ++ "[" ++ mid ++ "]" ++ post)%string).
Proof.
  split.
  - intros Hnone pre mid post ->.
    rewrite search_bracketed_spec in Hnone.
    assert (occurs "["%char (pre ++ "[" ++ mid ++ "]" ++ post) = true)
      as Hopen by (rewrite occurs_app; simpl; now rewrite orb_true_r).
    apply occurs_split_first in Hopen as (pre' & rest' & Hfirst).
    rewrite Hfirst in Hnone.
    apply split_first_keeps_suffix in Hfirst as [y ->].
    assert (occurs "]"%char (y ++ mid ++ "]" ++ post) = true) as Hclose
      by (rewrite !occurs_app; simpl; now rewrite !orb_true_r).
    apply occurs_split_last in Hclose as (mid' & post' & Hlast).
    rewrite Hlast in Hnone. discriminate.
  - intros Hno.
    destruct (Re.search true bracketed_array text) as [m|] eqn:E;
      [|reflexivity].
    apply search_result_is_first_to_last in E
      as (pre & mid & post & Htext & -> & _).
    elim (Hno pre mid post). rewrite Htext. simpl. do 2 f_equal.
    now rewrite append_assoc.
Qed.

Section Fallback.

Context {R : Runtime}.

(** X5. When the model's text has no "[" with a "]" somewhere after it,
    generate_quiz answers with the placeholder quiz: exactly one question,
    about the requested topic, with the four fixed options, correct answer
    "A" and the fixed explanation; the store is untouched. *)
Theorem generate_quiz_placeholder (now : datetime) (request : QuizRequest.t)
    (d : database) (text : string) :
  generate_content (quiz_prompt request) = Return text ->
  (forall pre mid post, text <> (pre ++ "[" ++ mid ++ "]" ++ post)%string) ->
  generate_quiz now request d =
  (Return {| QuizResponse.quiz_id :=
               md5_hexdigest (QuizRequest.user_id request ++ str_datetime now);
             QuizResponse.questions :=
               PyList
                 [PyDict
                    [("question",
                      PyStr ("Sample question about "
                             ++ QuizRequest.topic request ++ "?"));
                     ("options",
                      PyList [PyStr "A) Option 1"; PyStr "B) Option 2";
                              PyStr "C) Option 3"; PyStr "D) Option 4"]);
                     ("correct_answer", PyStr "A");
                     ("explanation",
                      PyStr "This is a sample explanation.")]];
             QuizResponse.subject := QuizRequest.subject request;
             QuizResponse.topic := QuizRequest.topic request;
             QuizResponse.difficulty := QuizRequest.difficulty request |},
   d).
Proof.
  intros Htext Hno. apply search_none_iff in Hno.
  now rewrite generate_quiz_eq, Htext, Hno.
Qed.

End Fallback.

Lemma search_result_is_first_to_last_witness :
  exists pre mid post,
    "x [1] and [2] y" = (pre ++ "[1] and [2]" ++ post)%string /\
    "[1] and [2]" = ("[" ++ mid ++ "]")%string /\
    occurs "["%char pre = false /\
    occurs "]"%char post = false.
Proof.
  apply (search_result_is_first_to_last "x [1] and [2] y" "[1] and [2]").
  reflexivity.
Defined.

Lemma generate_quiz_placeholder_witness :
  generate_quiz (R := Sample.runtime (Return "] no array here ["))
    Sample.clock Sample.algebra_quiz init_db =
  (Return {| QuizResponse.quiz_id := "md5:u12025-01-01 10:00:00.000000";
             QuizResponse.questions :=
               PyList
                 [PyDict
                    [("question", PyStr "Sample question about Algebra?");
                     ("options",
                      PyList [PyStr "A) Option 1"; PyStr "B) Option 2";
                              PyStr "C) Option 3"; PyStr "D) Option 4"]);
                     ("correct_answer", PyStr "A");
                     ("explanation",
                      PyStr "This is a sample explanation.")]];
             QuizResponse.subject := "Math";
             QuizResponse.topic := "Algebra";
             QuizResponse.difficulty := "easy" |},
   init_db).
Proof.
  apply (generate_quiz_placeholder
           (R := Sample.runtime (Return "] no array here ["))
           Sample.clock Sample.algebra_quiz init_db "] no array here [").
  - reflexivity.
  - apply search_none_iff. reflexivity.
Defined.

(** ** Submissions and creations that go through *)

Lemma fresh_quiz_id (id : string) (d : database) :
  (forall row, In row (quiz_history d) -> qh_id row <> id) ->
  has_quiz id d = false.
Proof.
  intros Hfresh. destruct (has_quiz id d) eqn:E; [|reflexivity].
  apply has_quiz_true in E as [row [Hin Hid]]. now elim (Hfresh row Hin).
Qed.

Section Accepted.

Context {R : Runtime}.

(** X8. The xp a submission earns is 6, 7, 8 or 9, and the message is
    "Great job!" exactly when hash(user_id) % 40 is at least 20. *)
Theorem submit_quiz_xp_range (now : datetime) (s : QuizSubmission.t)
    (d d' : database) (r : SubmitResponse.t) :
  submit_quiz now s d = (Return r, d') ->
  6 <= SubmitResponse.xp_earned r <= 9 /\
  (SubmitResponse.message r = "Great job!" <->
   20 <= hash (QuizSubmission.user_id s) mod 40).
Proof.
  intros H. apply submit_quiz_returns in H as (_ & _ & _ & Hxp & Hmsg & _).
  rewrite Hxp, Hmsg.
  pose proof (quiz_score_bounds (QuizSubmission.user_id s)) as Hb.
  split.
  - split.
    + apply Z.div_le_lower_bound; lia.
    + apply Z.div_le_upper_bound; lia.
  - unfold quiz_score in *.
    destruct (80 <=? _) eqn:E;
      [apply Z.leb_le in E | apply Z.leb_gt in E];
      split; intros; try discriminate; try reflexivity; lia.
Qed.

(** X10. The identifier is derived from the name and the clock alone: after
    a creation went through, creating a user of the same name at the same
    clock reading fails with status 500, whatever the subjects and the
    grade level, and the store keeps the first user only. *)
Theorem create_user_same_name_same_instant (now : datetime) (u u' : User.t)
    (d d1 : database) (created : CreateResponse.t) :
  create_user now u d = (Return created, d1) ->
  User.name u' = User.name u ->
  create_user now u' d1 =
  (Raise (HTTPException 500 "UNIQUE constraint failed: users.id"), d1).
Proof.
  rewrite !create_user_eq.
  destruct (has_user (new_user_id now u) d) eqn:Hnew; [discriminate|].
  intros H Hname. inversion H; subst; clear H.
  assert (new_user_id now u' = new_user_id now u) as ->
    by (unfold new_user_id; now rewrite Hname).
  replace (has_user (new_user_id now u) _) with true; [reflexivity|].
  symmetry. unfold has_user. simpl. apply existsb_exists.
  exists (created_row now u). split.
  - apply in_or_app. right. now left.
  - apply String.eqb_refl.
Qed.

(** X11. A created user stays: after the creation went through and then
    any sequence of requests, the statistics of the returned identifier are
    answered, with the created name, level 1 and xp 0. *)
Theorem created_user_stats_persist (now : datetime) (u : User.t)
    (d d1 : database) (created : CreateResponse.t)
    (trace : list (datetime * request)) :
  create_user now u d = (Return created, d1) ->
  exists stats,
    get_user_stats (CreateResponse.user_id created) (serve trace d1) =
      (Return stats, serve trace d1) /\
    StatsResponse.user_id stats = CreateResponse.user_id created /\
    StatsResponse.name stats = User.name u /\
    StatsResponse.level stats = 1 /\
    StatsResponse.xp stats = 0.
Proof.
  rewrite create_user_eq.
  destruct (has_user (new_user_id now u) d) eqn:Hnew; [discriminate|].
  intros H. inversion H; subst; clear H. simpl.
  rewrite get_user_stats_eq.
  destruct (serve_users trace
              {| users := users d ++ [created_row now u];
                 quiz_history := quiz_history d |}) as [added ->].
  simpl users.
  rewrite !find_app, (has_user_false_find _ _ Hnew). simpl find.
  rewrite String.eqb_refl.
  eexists. split; [reflexivity|]. now repeat split.
Qed.

(** X16. The quiz identifier is derived from the user identifier and the
    clock alone: two quizzes generated for one user at one clock reading
    carry the same identifier, whatever their subjects and questions, and
    once a submission under the first went through, a submission under the
    second fails with status 500 and changes nothing. *)
Theorem quiz_id_collision (now : datetime) (q1 q2 : QuizRequest.t)
    (da da' db db' : database) (r1 r2 : QuizResponse.t)
    (t1 t2 : datetime) (s1 s2 : QuizSubmission.t) (d d1 : database)
    (accepted : SubmitResponse.t) :
  generate_quiz now q1 da = (Return r1, da') ->
  generate_quiz now q2 db = (Return r2, db') ->
  QuizRequest.user_id q1 = QuizRequest.user_id q2 ->
  QuizSubmission.quiz_id s1 = QuizResponse.quiz_id r1 ->
  QuizSubmission.quiz_id s2 = QuizResponse.quiz_id r2 ->
  submit_quiz t1 s1 d = (Return accepted, d1) ->
  QuizResponse.quiz_id r1 = QuizResponse.quiz_id r2 /\
  submit_quiz t2 s2 d1 =
  (Raise (HTTPException 500 "UNIQUE constraint failed: quiz_history.id"), d1).
Proof.
  intros Hg1 Hg2 Huser Hs1 Hs2 Hsubmit.
  assert (QuizResponse.quiz_id r1 =
          md5_hexdigest (QuizRequest.user_id q1 ++ str_datetime now)) as Hid1.
  { rewrite generate_quiz_eq in Hg1.
    destruct (generate_content (quiz_prompt q1)) as [text|e]; [|discriminate].
    destruct (Re.search true bracketed_array text) as [m|].
    - destruct (json_loads m); [|discriminate]. now inversion Hg1.
    - now inversion Hg1. }
  assert (QuizResponse.quiz_id r2 =
          md5_hexdigest (QuizRequest.user_id q2 ++ str_datetime now)) as Hid2.
  { rewrite generate_quiz_eq in Hg2.
    destruct (generate_content (quiz_prompt q2)) as [text|e]; [|discriminate].
    destruct (Re.search true bracketed_array text) as [m|].
    - destruct (json_loads m); [|discriminate]. now inversion Hg2.
    - now inversion Hg2. }
  assert (QuizResponse.quiz_id r1 = QuizResponse.quiz_id r2) as Hsame
    by (now rewrite Hid1, Hid2, Huser).
  split; [exact Hsame|].
  apply submit_quiz_returns in Hsubmit as (_ & _ & _ & _ & _ & ->).
  rewrite submit_quiz_eq.
  replace (has_quiz (QuizSubmission.quiz_id s2) _) with true; [reflexivity|].
  symmetry. apply has_quiz_true. exists (submitted_row t1 s1). split.
  - simpl. apply in_or_app. right. now left.
  - simpl. now rewrite Hs1, Hs2, Hsame.
Qed.

End Accepted.

Lemma submit_quiz_xp_range_witness :
  exists r d',
    submit_quiz (R := Sample.quiet) Sample.clock Sample.submission init_db =
      (Return r, d') /\
    6 <= SubmitResponse.xp_earned r <= 9.
Proof.
  eexists. eexists. split; [reflexivity|].
  apply (submit_quiz_xp_range (R := Sample.quiet)
           Sample.clock Sample.submission init_db _ _ eq_refl).
Defined.

Lemma create_user_same_name_same_instant_witness :
  create_user (R := Sample.quiet) Sample.clock Scenario.ana_again
    Scenario.with_ana =
  (Raise (HTTPException 500 "UNIQUE constraint failed: users.id"),
   Scenario.with_ana).
Proof.
  apply (create_user_same_name_same_instant (R := Sample.quiet)
           Sample.clock Sample.ana Scenario.ana_again init_db
           Scenario.with_ana
           {| CreateResponse.user_id := "md5:Ana2025-01-01 10:00:00.000000";
              CreateResponse.message := "User created successfully" |});
    reflexivity.
Defined.

Lemma created_user_stats_persist_witness :
  exists stats,
    get_user_stats "md5:Ana2025-01-01 10:00:00.000000"
      (serve (R := Sample.quiet) Scenario.trace Scenario.with_ana) =
      (Return stats,
       serve (R := Sample.quiet) Scenario.trace Scenario.with_ana) /\
    StatsResponse.user_id stats = "md5:Ana2025-01-01 10:00:00.000000" /\
    StatsResponse.name stats = "Ana" /\
    StatsResponse.level stats = 1 /\
    StatsResponse.xp stats = 0.
Proof.
  apply (created_user_stats_persist (R := Sample.quiet)
           Sample.clock Sample.ana init_db Scenario.with_ana
           {| CreateResponse.user_id := "md5:Ana2025-01-01 10:00:00.000000";
              CreateResponse.message := "User created successfully" |}
           Scenario.trace).
  reflexivity.
Defined.

Lemma quiz_id_collision_witness :
  exists r1 r2 d1,
    fst (generate_quiz (R := Sample.quiet)
           Sample.clock Sample.algebra_quiz init_db) = Return r1 /\
    fst (generate_quiz (R := Sample.quiet)
           Sample.clock Scenario.geometry_quiz init_db) = Return r2 /\
    QuizResponse.quiz_id r1 = QuizResponse.quiz_id r2 /\
    submit_quiz (R := Sample.quiet)
      Sample.clock Scenario.second_submission d1 =
    (Raise (HTTPException 500 "UNIQUE constraint failed: quiz_history.id"),
     d1).
Proof.
  eexists. eexists. eexists.
  split; [reflexivity|]. split; [reflexivity|].
  apply (quiz_id_collision (R := Sample.quiet)
           Sample.clock Sample.algebra_quiz Scenario.geometry_quiz
           init_db init_db init_db init_db _ _
           Sample.clock Sample.clock
           Scenario.first_submission Scenario.second_submission
           init_db _ _ eq_refl eq_refl eq_refl eq_refl eq_refl eq_refl).
Defined.

(** ** The aggregates of get_user_stats *)

Lemma filter_filter_other (k s : string) (rows : list quiz_history_row) :
  s <> k ->
  filter (fun q => String.eqb (qh_subject q) s)
         (filter (fun q => negb (String.eqb (qh_subject q) k)) rows) =
  filter (fun q => String.eqb (qh_subject q) s) rows.
Proof.
  intros Hsk. induction rows as [|q rows IH]; simpl; [reflexivity|].
  destruct (String.eqb (qh_subject q) k) eqn:Ek; simpl.
  - apply String.eqb_eq in Ek.
    destruct (String.eqb (qh_subject q) s) eqn:Es; [|exact IH].
    apply String.eqb_eq in Es. congruence.
  - destruct (String.eqb (qh_subject q) s); now rewrite IH.
Qed.

(** Grouping by subject loses no row and counts none twice. *)
Lemma group_sizes_add_up (keys : list string) (rows : list quiz_history_row) :
  NoDup keys ->
  (forall q, In q rows -> In (qh_subject q) keys) ->
  list_sum
    (map (fun s =>
            List.length
              (filter (fun q => String.eqb (qh_subject q) s) rows))
         keys) =
  List.length rows.
Proof.
  revert rows. induction keys as [|k keys IH]; intros rows Hnodup Hin.
  - destruct rows as [|q rows]; [reflexivity|].
    elim (Hin q (or_introl eq_refl)).
  - inversion Hnodup as [|? ? Hk Hkeys]; subst. simpl.
    rewrite <- (filter_length
                  (fun q => String.eqb (qh_subject q) k) rows).
    f_equal.
    rewrite <- (IH (filter (fun q => negb (String.eqb (qh_subject q) k))
                           rows) Hkeys).
    + f_equal. apply map_ext_in. intros s Hs.
      rewrite filter_filter_other; [reflexivity|].
      intros ->. now apply Hk.
    + intros q Hq. apply filter_In in Hq as [Hq Hne].
      destruct (Hin q Hq) as [Heq | Hrest]; [|exact Hrest].
      rewrite <- Heq, String.eqb_refl in Hne. discriminate.
Qed.

Lemma sum_of_nat (l : list nat) :
  fold_right Z.add 0 (map Z.of_nat l) = Z.of_nat (list_sum l).
Proof.
  induction l as [|n l IH]; simpl fold_right; simpl list_sum;
    [reflexivity | rewrite IH; lia].
Qed.

Lemma stats_subjects (conn : connection) (user_id : string) :
  map StatsResponse.subject
      (map stat_of_row (select_subject_stats conn user_id)) =
  nodup string_dec
    (map qh_subject
         (filter (fun q => String.eqb (qh_user_id q) user_id)
                 (quiz_history (working conn)))).
Proof.
  unfold select_subject_stats. rewrite !map_map. simpl. apply map_id.
Qed.

Lemma stats_counts (conn : connection) (user_id : string) :
  map StatsResponse.quiz_count
      (map stat_of_row (select_subject_stats conn user_id)) =
  map Z.of_nat
    (map (fun s =>
            List.length
              (filter (fun q => String.eqb (qh_subject q) s)
                 (filter (fun q => String.eqb (qh_user_id q) user_id)
                         (quiz_history (working conn)))))
         (nodup string_dec
            (map qh_subject
               (filter (fun q => String.eqb (qh_user_id q) user_id)
                       (quiz_history (working conn)))))).
Proof.
  unfold select_subject_stats. now rewrite !map_map.
Qed.

(** X12. In the statistics of a user the subjects are pairwise distinct,
    every subject of a quiz of that user is listed, every listed subject
    counts at least one quiz, and the counts add up to the number of
    quiz_history rows of that user: each quiz is counted once. *)
Theorem subject_stats_partition (user_id : string) (d d' : database)
    (stats : StatsResponse.t) :
  get_user_stats user_id d = (Return stats, d') ->
  NoDup (map StatsResponse.subject (StatsResponse.subject_stats stats)) /\
  (forall q, In q (quiz_history d) -> qh_user_id q = user_id ->
             In (qh_subject q)
                (map StatsResponse.subject
                     (StatsResponse.subject_stats stats))) /\
  Forall (fun st => 1 <= StatsResponse.quiz_count st)
         (StatsResponse.subject_stats stats) /\
  fold_right Z.add 0
    (map StatsResponse.quiz_count (StatsResponse.subject_stats stats)) =
  Z.of_nat
    (List.length
       (filter (fun q => String.eqb (qh_user_id q) user_id)
               (quiz_history d))).
Proof.
  rewrite get_user_stats_eq.
  destruct (find _ (users d)) as [row|]; [|discriminate].
  intros H. inversion H; subst; clear H. simpl.
  rewrite stats_subjects, stats_counts. simpl working.
  set (rows := filter (fun q => String.eqb (qh_user_id q) user_id)
                      (quiz_history d')).
  split; [apply NoDup_nodup|]. split; [|split].
  - intros q Hq Hid. apply nodup_In, in_map. apply filter_In.
    split; [exact Hq | now apply String.eqb_eq].
  - unfold select_subject_stats. fold rows.
    apply Forall_forall. intros st Hst.
    apply in_map_iff in Hst as [raw [<- Hraw]].
    apply in_map_iff in Hraw as [s [<- Hs]]. simpl. fold rows.
    apply nodup_In, in_map_iff in Hs as [q [Hsub Hq]].
    assert (In q (filter (fun q0 => String.eqb (qh_subject q0) s) rows))
      as Hgroup
      by (apply filter_In; split; [exact Hq | now apply String.eqb_eq]).
    destruct (filter (fun q0 => String.eqb (qh_subject q0) s) rows);
      [destruct Hgroup | simpl List.length; lia].
  - rewrite sum_of_nat. f_equal. apply group_sizes_add_up.
    + apply NoDup_nodup.
    + intros q Hq. now apply nodup_In, in_map.
Qed.

Section Counted.

Context {R : Runtime}.

(** X13. A submission of an existing user shows in their statistics: once
    it went through, the statistics of that user are answered and list the
    submitted subject with one quiz more than the user had in that subject
    before. *)
Theorem submitted_quiz_is_counted (now : datetime) (s : QuizSubmission.t)
    (d d1 : database) (r : SubmitResponse.t) (owner : user_row) :
  submit_quiz now s d = (Return r, d1) ->
  In owner (users d) ->
  users_id owner = QuizSubmission.user_id s ->
  exists stats,
    get_user_stats (QuizSubmission.user_id s) d1 = (Return stats, d1) /\
    exists st,
      In st (StatsResponse.subject_stats stats) /\
      StatsResponse.subject st = QuizSubmission.subject s /\
      StatsResponse.quiz_count st =
        1 + Z.of_nat
              (List.length
                 (filter
                    (fun q => String.eqb (qh_subject q)
                                         (QuizSubmission.subject s))
                    (filter
                       (fun q => String.eqb (qh_user_id q)
                                            (QuizSubmission.user_id s))
                       (quiz_history d)))).
Proof.
  intros Hsubmit Hin Hid.
  apply submit_quiz_returns in Hsubmit as (_ & _ & _ & _ & _ & ->).
  set (mine := filter (fun q => String.eqb (qh_user_id q)
                                           (QuizSubmission.user_id s))
                      (quiz_history d)).
  assert (filter (fun q => String.eqb (qh_user_id q)
                                      (QuizSubmission.user_id s))
                 (quiz_history d ++ [submitted_row now s]) =
          (mine ++ [submitted_row now s])%list) as Hmine.
  { rewrite filter_app. cbn [filter submitted_row qh_user_id].
    now rewrite String.eqb_refl. }
  rewrite get_user_stats_eq. cbn [users].
  destruct (find (fun u => String.eqb (users_id u) (QuizSubmission.user_id s))
                 (users d)) as [row|] eqn:Hfind.
  2:{ apply (find_none _ _ Hfind) in Hin.
      apply String.eqb_neq in Hin. now elim Hin. }
  eexists. split; [reflexivity|].
  cbn [StatsResponse.subject_stats].
  unfold select_subject_stats. cbn [working quiz_history]. rewrite Hmine.
  match goal with
  | |- context [map ?f (nodup _ _)] =>
      exists (stat_of_row (f (QuizSubmission.subject s)))
  end.
  split; [|split].
  - apply in_map. apply in_map_iff.
    exists (QuizSubmission.subject s). split; [reflexivity|].
    apply nodup_In. rewrite map_app. apply in_or_app. right. now left.
  - reflexivity.
  - cbn [stat_of_row StatsResponse.quiz_count stat_quiz_count].
    rewrite filter_app. cbn [filter submitted_row qh_subject].
    rewrite String.eqb_refl, length_app.
    cbn [List.length]. lia.
Qed.

End Counted.

Section Scores.

Context {R : Runtime}.

Lemma app_scores (now : datetime) (req : request) (d : database) :
  Forall (fun q => 60 <= qh_score q <= 90) (quiz_history d) ->
  Forall (fun q => 60 <= qh_score q <= 90)
         (quiz_history (snd (app now req d))).
Proof.
  intros Hd.
  destruct req as [|body|body|body|body|user_id]; unfold app;
    rewrite snd_bind_ret.
  - exact Hd.
  - now rewrite chat_with_ai_db.
  - now rewrite generate_quiz_db.
  - rewrite submit_quiz_eq.
    destruct (has_quiz (QuizSubmission.quiz_id body) d); simpl;
      [exact Hd|].
    apply Forall_app. split; [exact Hd|].
    constructor; [|constructor]. simpl. apply quiz_score_bounds.
  - now rewrite create_user_quiz_history.
  - now rewrite get_user_stats_db.
Qed.

(** X14. Every score stored in quiz_history lies in [60, 90]: when it holds
    of the rows of a store (of the empty store, for one), it holds of the
    rows after any sequence of requests. *)
Theorem stored_scores_in_range (trace : list (datetime * request))
    (d : database) :
  Forall (fun q => 60 <= qh_score q <= 90) (quiz_history d) ->
  Forall (fun q => 60 <= qh_score q <= 90) (quiz_history (serve trace d)).
Proof.
  revert d. induction trace as [|[now req] rest IH]; intros d Hd; simpl.
  - exact Hd.
  - apply IH. now apply app_scores.
Qed.

End Scores.

Lemma sum_scores_bounds (rows : list quiz_history_row) :
  Forall (fun q => 60 <= qh_score q <= 90) rows ->
  60 * Z.of_nat (List.length rows) <= sum_scores rows
  <= 90 * Z.of_nat (List.length rows).
Proof.
  induction 1 as [|q rows Hq Hrows IH].
  - simpl. lia.
  - change (sum_scores (q :: rows)) with (qh_score q + sum_scores rows).
    change (List.length (q :: rows)) with (S (List.length rows)). lia.
Qed.

(** X15. When every stored score lies in [60, 90], every average that the
    statistics report lies in [60, 90] too. *)
Theorem average_scores_in_range (user_id : string) (d d' : database)
    (stats : StatsResponse.t) :
  Forall (fun q => 60 <= qh_score q <= 90) (quiz_history d) ->
  get_user_stats user_id d = (Return stats, d') ->
  Forall (fun st =>
            (60 # 1 <= StatsResponse.average_score st)%Q /\
            (StatsResponse.average_score st <= 90 # 1)%Q)
         (StatsResponse.subject_stats stats).
Proof.
  intros Hscores. rewrite get_user_stats_eq.
  destruct (find _ (users d)) as [row|]; [|discriminate].
  intros H. inversion H; subst; clear H. simpl.
  unfold select_subject_stats. simpl working.
  set (rows := filter (fun q => String.eqb (qh_user_id q) user_id)
                      (quiz_history d')).
  apply Forall_forall. intros st Hst.
  apply in_map_iff in Hst as [raw [<- Hraw]].
  apply in_map_iff in Hraw as [s [<- Hs]]. simpl.
  set (group := filter (fun q => String.eqb (qh_subject q) s) rows).
  assert (Forall (fun q => 60 <= qh_score q <= 90) group) as Hgroup.
  { apply Forall_forall. intros q Hq.
    apply filter_In in Hq as [Hq _]. apply filter_In in Hq as [Hq _].
    revert q Hq. now apply Forall_forall. }
  assert (List.length group <> O) as Hne.
  { apply nodup_In, in_map_iff in Hs as [q [Hsub Hq]].
    assert (In q group) as Hin
      by (apply filter_In; split; [exact Hq | now apply String.eqb_eq]).
    destruct group; [destruct Hin | discriminate]. }
  pose proof (sum_scores_bounds group Hgroup) as Hsum.
  assert (Z.pos (Pos.of_nat (List.length group)) =
          Z.of_nat (List.length group)) as Hpos
    by (rewrite <- positive_nat_Z, Nat2Pos.id; [reflexivity | exact Hne]).
  unfold Qle. cbn [Qnum Qden]. rewrite Hpos. lia.
Qed.

Lemma subject_stats_partition_witness :
  exists stats d',
    get_user_stats "md5:Ana2025-01-01 10:00:00.000000" Scenario.with_quiz =
      (Return stats, d') /\
    fold_right Z.add 0
      (map StatsResponse.quiz_count (StatsResponse.subject_stats stats)) = 1.
Proof.
  eexists. eexists. split; [reflexivity|].
  destruct (subject_stats_partition
              "md5:Ana2025-01-01 10:00:00.000000" Scenario.with_quiz _ _
              eq_refl) as (_ & _ & _ & Hsum).
  exact Hsum.
Defined.

Lemma submitted_quiz_is_counted_witness :
  exists stats,
    get_user_stats "md5:Ana2025-01-01 10:00:00.000000" Scenario.with_quiz =
      (Return stats, Scenario.with_quiz) /\
    exists st,
      In st (StatsResponse.subject_stats stats) /\
      StatsResponse.subject st = "Math" /\
      StatsResponse.quiz_count st = 1.
Proof.
  apply (submitted_quiz_is_counted (R := Sample.quiet)
           Sample.clock Scenario.ana_submission Scenario.with_ana
           Scenario.with_quiz _
           (created_row (R := Sample.quiet) Sample.clock Sample.ana)
           eq_refl).
  - left. reflexivity.
  - reflexivity.
Defined.

Lemma stored_scores_in_range_witness :
  Forall (fun q => 60 <= qh_score q <= 90)
         (quiz_history (serve (R := Sample.quiet) Scenario.trace init_db)).
Proof.
  apply (stored_scores_in_range (R := Sample.quiet) Scenario.trace init_db).
  constructor.
Defined.

Lemma average_scores_in_range_witness :
  exists stats d',
    get_user_stats "md5:Ana2025-01-01 10:00:00.000000" Scenario.with_quiz =
      (Return stats, d') /\
    Forall (fun st =>
              (60 # 1 <= StatsResponse.average_score st)%Q /\
              (StatsResponse.average_score st <= 90 # 1)%Q)
           (StatsResponse.subject_stats stats).
Proof.
  eexists. eexists. split; [reflexivity|].
  eapply (average_scores_in_range
            "md5:Ana2025-01-01 10:00:00.000000" Scenario.with_quiz).
  - repeat constructor; vm_compute; discriminate.
  - reflexivity.
Defined.

(** * The process: refused inserts, the write lock and the collector *)

Lemma database_is_locked_eq {A : Type} (d : database) :
  @database_is_locked A d =
  (Raise (HTTPException 500 "database is locked"), d).
Proof. reflexivity. Qed.

Section ProcessProperties.

Context {R : Runtime}.

(** A submission as the process answers it: refused by the lock, refused
    by the primary key (its connection is then abandoned with the lock), or
    accepted. *)
Lemma respond_submit_quiz (now : datetime) (s : QuizSubmission.t)
    (p : process) :
  respond now (PostSubmitQuiz s) p =
  if write_locked p
  then (Raise (HTTPException 500 "database is locked"), p)
  else if has_quiz (QuizSubmission.quiz_id s) (file p)
  then (Raise (HTTPException 500 "UNIQUE constraint failed: quiz_history.id"),
        {| file := file p; write_locked := true |})
  else
    let score := quiz_score (QuizSubmission.user_id s) in
    (Return
       (SubmitBody
          {| SubmitResponse.score := score;
             SubmitResponse.total_questions :=
               Z.of_nat (List.length (QuizSubmission.answers s));
             SubmitResponse.percentage := score;
             SubmitResponse.message :=
               if 80 <=? score then "Great job!" else "Keep practicing!";
             SubmitResponse.xp_earned := score / 10 |}),
     {| file :=
          {| users := users (file p);
             quiz_history := quiz_history (file p) ++ [submitted_row now s] |};
        write_locked := false |}).
Proof.
  unfold respond, run_write.
  destruct (write_locked p); [reflexivity|].
  unfold app, bind, ret. rewrite submit_quiz_eq.
  destruct (has_quiz (QuizSubmission.quiz_id s) (file p)); reflexivity.
Qed.

Lemma respond_create_user (now : datetime) (u : User.t) (p : process) :
  respond now (PostCreateUser u) p =
  if write_locked p
  then (Raise (HTTPException 500 "database is locked"), p)
  else if has_user (new_user_id now u) (file p)
  then (Raise (HTTPException 500 "UNIQUE constraint failed: users.id"),
        {| file := file p; write_locked := true |})
  else
    (Return
       (CreateBody
          {| CreateResponse.user_id := new_user_id now u;
             CreateResponse.message := "User created successfully" |}),
     {| file :=
          {| users := users (file p) ++ [created_row now u];
             quiz_history := quiz_history (file p) |};
        write_locked := false |}).
Proof.
  unfold respond, run_write.
  destruct (write_locked p); [reflexivity|].
  unfold app, bind, ret. rewrite create_user_eq.
  destruct (has_user (new_user_id now u) (file p)); reflexivity.
Qed.

Lemma run_read_file {A : Type} (handler : M A) (p : process) :
  file (snd (run_read handler p)) = snd (handler (file p)).
Proof.
  unfold run_read. destruct (handler (file p)) as [o d']. reflexivity.
Qed.

(** X2. quiz_history only grows at its end, by the rows of the accepted
    submissions: after any sequence of requests and collections the table
    is the one before, row for row, followed by one row for each submission
    that was answered with success, in the order of the requests, carrying
    that submission's quiz identifier, user identifier, subject, score,
    number of answers and time. Refused submissions and every other request
    add nothing. *)
Theorem quiz_history_append_only (events : list event) (p : process) :
  quiz_history (file (run events p)) =
  (quiz_history (file p) ++ accepted_rows events p)%list.
Proof.
  revert p. induction events as [|ev rest IH]; intros p.
  - simpl. now rewrite app_nil_r.
  - cbn [run accepted_rows]. rewrite IH, app_assoc. f_equal.
    destruct ev as [now req|]; [|simpl; now rewrite app_nil_r].
    destruct req as [|body|body|body|body|user_id]; cbn [step].
    + now rewrite app_nil_r.
    + unfold respond. rewrite run_read_file. unfold app.
      now rewrite snd_bind_ret, chat_with_ai_db, app_nil_r.
    + unfold respond. rewrite run_read_file. unfold app.
      now rewrite snd_bind_ret, generate_quiz_db, app_nil_r.
    + rewrite respond_submit_quiz.
      destruct (write_locked p); [simpl; now rewrite app_nil_r|].
      destruct (has_quiz (QuizSubmission.quiz_id body) (file p));
        [simpl; now rewrite app_nil_r | reflexivity].
    + rewrite respond_create_user.
      destruct (write_locked p); [simpl; now rewrite app_nil_r|].
      destruct (has_user (new_user_id now body) (file p));
        simpl; now rewrite app_nil_r.
    + unfold respond. rewrite run_read_file. unfold app.
      now rewrite snd_bind_ret, get_user_stats_db, app_nil_r.
Qed.

(** X7. While no abandoned connection holds the write lock, a submission
    goes through whenever no row of quiz_history has its quiz identifier:
    the users table is not consulted, so the user need not exist, and
    neither the answers nor the subject can make it fail. Its row is then
    in quiz_history and the lock is free. *)
Theorem submit_quiz_accepts_fresh_id (now : datetime) (s : QuizSubmission.t)
    (p : process) :
  write_locked p = false ->
  (forall row, In row (quiz_history (file p)) ->
               qh_id row <> QuizSubmission.quiz_id s) ->
  exists r p',
    respond now (PostSubmitQuiz s) p = (Return (SubmitBody r), p') /\
    SubmitResponse.total_questions r =
      Z.of_nat (List.length (QuizSubmission.answers s)) /\
    has_quiz (QuizSubmission.quiz_id s) (file p') = true /\
    users (file p') = users (file p) /\
    write_locked p' = false.
Proof.
  intros Hfree Hfresh. apply fresh_quiz_id in Hfresh.
  rewrite respond_submit_quiz, Hfree, Hfresh.
  eexists. eexists. split; [reflexivity|]. split; [reflexivity|].
  split; [|split; reflexivity].
  apply has_quiz_true. exists (submitted_row now s). split; [|reflexivity].
  simpl. apply in_or_app. right. now left.
Qed.

(** X9. While no abandoned connection holds the write lock, a creation goes
    through whenever no row of users has the derived identifier
    md5(name + str(now)): it answers with that identifier and appends one
    row with the name, the serialized subjects, level 1 and xp 0; the other
    rows and quiz_history are as before, the grade level is stored
    nowhere, and the lock is free afterwards. *)
Theorem create_user_inserts_one_row (now : datetime) (u : User.t)
    (p : process) :
  write_locked p = false ->
  (forall row, In row (users (file p)) ->
               users_id row <> md5_hexdigest (User.name u ++ str_datetime now)) ->
  respond now (PostCreateUser u) p =
  (Return
     (CreateBody
        {| CreateResponse.user_id :=
             md5_hexdigest (User.name u ++ str_datetime now);
           CreateResponse.message := "User created successfully" |}),
   {| file :=
        {| users :=
             users (file p) ++
             [{| users_id := md5_hexdigest (User.name u ++ str_datetime now);
                 users_name := User.name u;
                 users_subjects := json_dumps (User.subjects u);
                 users_level := 1;
                 users_xp := 0 |}];
           quiz_history := quiz_history (file p) |};
      write_locked := false |}).
Proof.
  intros Hfree Hfresh. apply no_user_has_user in Hfresh.
  rewrite respond_create_user, Hfree. unfold new_user_id in *.
  now rewrite Hfresh.
Qed.

(** X17. A refused INSERT blocks the writers that follow. When a submission
    or a creation fails in a process whose write lock was free, the file is
    as before but the lock is now held: until the collector runs, every
    submission and every creation, whatever its identifiers, fails with
    status 500 and the detail "database is locked" and changes nothing,
    while statistics are answered as before. After a collection the lock
    is free again, over the same file. *)
Theorem refused_insert_blocks_writers (now : datetime) (req : request)
    (p p1 : process) (e : exn) :
  write_locked p = false ->
  match req with
  | PostSubmitQuiz _ => True
  | PostCreateUser _ => True
  | _ => False
  end ->
  respond now req p = (Raise e, p1) ->
  file p1 = file p /\
  write_locked p1 = true /\
  (forall now' s,
      respond now' (PostSubmitQuiz s) p1 =
      (Raise (HTTPException 500 "database is locked"), p1)) /\
  (forall now' u,
      respond now' (PostCreateUser u) p1 =
      (Raise (HTTPException 500 "database is locked"), p1)) /\
  (forall now' user_id,
      respond now' (GetUserStats user_id) p1 =
      (fst (app now' (GetUserStats user_id) (file p)), p1)) /\
  step Collect p1 = p.
Proof.
  intros Hfree Hwrite Hfail.
  assert (p1 = {| file := file p; write_locked := true |}) as ->.
  { destruct req as [|body|body|body|body|user_id]; try now elim Hwrite.
    - rewrite respond_submit_quiz, Hfree in Hfail.
      destruct (has_quiz (QuizSubmission.quiz_id body) (file p));
        [now inversion Hfail | discriminate].
    - rewrite respond_create_user, Hfree in Hfail.
      destruct (has_user (new_user_id now body) (file p));
        [now inversion Hfail | discriminate]. }
  split; [reflexivity|]. split; [reflexivity|].
  split; [|split; [|split]].
  - intros now' s. now rewrite respond_submit_quiz.
  - intros now' u. now rewrite respond_create_user.
  - intros now' user_id. unfold respond, run_read. cbn [file write_locked].
    pose proof (get_user_stats_db user_id (file p)) as Hdb.
    unfold app. 
    destruct (bind (get_user_stats user_id)
                   (fun r => ret (StatsBody r)) (file p)) as [o d'] eqn:E.
    assert (d' = file p) as ->.
    { change d' with (snd (o, d')). rewrite <- E.
      now rewrite snd_bind_ret. }
    reflexivity.
  - destruct p as [d locked]. simpl in *. now subst.
Qed.

End ProcessProperties.

Example run_events_history :
  map qh_id
      (quiz_history
         (file (run (R := Sample.quiet) Scenario.events (start init_db)))) =
  ["q1"; "md5:u12025-01-01 10:00:00.000000"] /\
  List.length
    (accepted_rows (R := Sample.quiet) Scenario.events (start init_db)) =
  2%nat.
Proof. split; reflexivity. Qed.

Lemma submit_quiz_accepts_fresh_id_witness :
  users init_db = [] /\
  exists r p',
    respond (R := Sample.quiet) Sample.clock
      (PostSubmitQuiz Sample.submission) (start init_db) =
      (Return (SubmitBody r), p') /\
    SubmitResponse.total_questions r = 2 /\
    has_quiz "q1" (file p') = true /\
    users (file p') = [] /\
    write_locked p' = false.
Proof.
  split; [reflexivity|].
  apply (submit_quiz_accepts_fresh_id (R := Sample.quiet)
           Sample.clock Sample.submission (start init_db)).
  - reflexivity.
  - intros row Hin. destruct Hin.
Defined.

Lemma create_user_inserts_one_row_witness :
  exists p',
    respond (R := Sample.quiet) Sample.morning (PostCreateUser Sample.ana)
      (start Scenario.with_ana) =
    (Return
       (CreateBody
          {| CreateResponse.user_id := "md5:Ana2025-01-01 09:00:00.000000";
             CreateResponse.message := "User created successfully" |}), p') /\
    List.length (users (file p')) = 2%nat.
Proof.
  eexists. split.
  - apply (create_user_inserts_one_row (R := Sample.quiet)
             Sample.morning Sample.ana (start Scenario.with_ana)).
    + reflexivity.
    + intros row [<- | []]. discriminate.
  - reflexivity.
Defined.

Lemma refused_insert_blocks_writers_witness :
  write_locked Scenario.after_refusal = true /\
  respond (R := Sample.quiet) Sample.clock
    (PostSubmitQuiz Scenario.first_submission) Scenario.after_refusal =
  (Raise (HTTPException 500 "database is locked"), Scenario.after_refusal).
Proof.
  destruct (refused_insert_blocks_writers (R := Sample.quiet)
              Sample.clock (PostSubmitQuiz Sample.submission)
              (step (R := Sample.quiet)
                 (Request Sample.morning (PostSubmitQuiz Sample.submission))
                 (start init_db))
              Scenario.after_refusal
              (HTTPException 500 "UNIQUE constraint failed: quiz_history.id")
              eq_refl I eq_refl)
    as (_ & Hlocked & Hsubmit & _).
  split; [exact Hlocked | apply Hsubmit].
Defined.

(** C4, as stated, fails: a text may hold a valid array and still not be
    answered with it. The text "[1] and [2]" holds the array "[1]", which
    decodes; the search takes the span from the first "[" to the last "]",
    "[1] and [2]", which does not, and the caller gets status 500. *)
Lemma generate_quiz_returns_parsed_array_counterexample :
  "[1] and [2]" = (EmptyString ++ "[1]" ++ " and [2]")%string /\
  Sample.loads "[1]" = Return (PyList [PyInt 1]) /\
  Re.search true bracketed_array "[1] and [2]" = Some "[1] and [2]" /\
  (exists e, Sample.loads "[1] and [2]" = Raise e) /\
  exists detail,
    generate_quiz (R := Sample.runtime (Return "[1] and [2]"))
      Sample.clock Sample.algebra_quiz init_db =
    (Raise (HTTPException 500 detail), init_db).
Proof.
  split; [reflexivity|]. split; [reflexivity|]. split; [reflexivity|].
  split; eexists; reflexivity.
Defined.
